(** * MT4Manager.h: the C++ wrapper over the MT4 Manager API

    A shallow embedding of [mt4_api/MT4Manager.h].  The native SDK
    ([MT4ManagerAPI.h]) is an opaque peer: its structs are modelled with the
    fields the wrapper reads or writes, its interface [CManagerInterface] as a
    type class over the hidden state of the SDK, and its enumeration
    constants as fields of that class. *)

From Stdlib Require Import ZArith List String Bool Lia SpecFloat.
Import ListNotations.
Open Scope Z_scope.

(** ** Machine types *)

(** [double]: IEEE 754 binary64, as the Standard Library specifies it. *)
Definition double : Type := spec_float.

Definition dbl_prec : Z := 53.
Definition dbl_emax : Z := 1024.

(** [x * y] on doubles, rounded to nearest even. *)
Definition dmul (x y : double) : double := SFmul dbl_prec dbl_emax x y.

(** [x > y] on doubles; false as soon as one side is NaN. *)
Definition dgt (x y : double) : bool := SFltb y x.

(** [x <= y] on doubles. *)
Definition dle (x y : double) : bool := SFleb x y.

(** The literal [0] converted to double, and the zero of [= {0}]. *)
Definition dzero : double := S754_zero false.

(** The literal [100] converted to double: 100 = 7036874417766400 * 2^-46. *)
Definition d100 : double := S754_finite false 7036874417766400 (-46).

Definition INT_MIN : Z := - 2 ^ 31.
Definition INT_MAX : Z := 2 ^ 31 - 1.

(** The integral part of a finite double, its fraction discarded;
    [None] for NaN and the infinities. *)
Definition dtrunc (d : double) : option Z :=
  match d with
  | S754_zero _ => Some 0
  | S754_finite s m e =>
      let q := if 0 <=? e then Zpos m * 2 ^ e else Zpos m / 2 ^ (- e) in
      Some (if s then - q else q)
  | S754_infinity _ | S754_nan => None
  end.

(** The cast [(int)d].  Where the integral part does not fit an [int] (or
    there is none) C++ leaves the cast undefined; the x86 conversion
    instructions then produce the "integer indefinite" value [INT_MIN]. *)
Definition double_to_int (d : double) : Z :=
  match dtrunc d with
  | Some t => if (INT_MIN <=? t) && (t <=? INT_MAX) then t else INT_MIN
  | None => INT_MIN
  end.

Definition SHRT_MIN : Z := - 2 ^ 15.
Definition SHRT_MAX : Z := 2 ^ 15 - 1.

(** An [int] assigned to a [short]: the low 16 bits, read as signed. *)
Definition int_to_short (z : Z) : Z := (z + 2 ^ 15) mod 2 ^ 16 - 2 ^ 15.

(** [strncpy(dst, src, n)] into a zeroed buffer of [n + 1] characters. *)
Definition strncpy (src : string) (n : nat) : string := substring 0 n src.

(** ** The SDK's records (the fields the wrapper uses) *)

Module UserRecord.
Record t := mk {
  login : Z; group : string; name : string; email : string;
  balance : double; credit : double;
  regdate : Z; lastdate : Z; leverage : Z }.
End UserRecord.

Module ConSymbol.
Record t := mk {
  symbol : string; description : string; currency : string;
  digits : Z; point : double; spread : Z;
  contract_size : double; tick_value : double; tick_size : double }.
End ConSymbol.

Module SymbolInfo.
Record t := mk { bid : double; ask : double; lasttime : Z }.
End SymbolInfo.

Module TradeRecord.
Record t := mk {
  order : Z; login : Z; symbol : string; cmd : Z; volume : Z;
  open_price : double; close_price : double; sl : double; tp : double;
  open_time : Z; close_time : Z;
  profit : double; commission : double; storage : double;
  comment : string }.
End TradeRecord.

(** [cmd] is a [short] in the SDK's struct, the other integers are [int]. *)
Module TradeTransInfo.
Record t := mk {
  type : Z; cmd : Z; order : Z; orderby : Z; symbol : string;
  volume : Z; price : double; sl : double; tp : double;
  comment : string }.

(** [TradeTransInfo trade = {0};] *)
Definition zero : t :=
  mk 0 0 0 0 EmptyString 0 dzero dzero dzero EmptyString.

Definition set_type (v : Z) (d : t) : t :=
  mk v (cmd d) (order d) (orderby d) (symbol d) (volume d) (price d) (sl d) (tp d) (comment d).
Definition set_cmd (v : Z) (d : t) : t :=
  mk (type d) v (order d) (orderby d) (symbol d) (volume d) (price d) (sl d) (tp d) (comment d).
Definition set_order (v : Z) (d : t) : t :=
  mk (type d) (cmd d) v (orderby d) (symbol d) (volume d) (price d) (sl d) (tp d) (comment d).
Definition set_orderby (v : Z) (d : t) : t :=
  mk (type d) (cmd d) (order d) v (symbol d) (volume d) (price d) (sl d) (tp d) (comment d).
Definition set_symbol (v : string) (d : t) : t :=
  mk (type d) (cmd d) (order d) (orderby d) v (volume d) (price d) (sl d) (tp d) (comment d).
Definition set_volume (v : Z) (d : t) : t :=
  mk (type d) (cmd d) (order d) (orderby d) (symbol d) v (price d) (sl d) (tp d) (comment d).
Definition set_price (v : double) (d : t) : t :=
  mk (type d) (cmd d) (order d) (orderby d) (symbol d) (volume d) v (sl d) (tp d) (comment d).
Definition set_sl (v : double) (d : t) : t :=
  mk (type d) (cmd d) (order d) (orderby d) (symbol d) (volume d) (price d) v (tp d) (comment d).
Definition set_tp (v : double) (d : t) : t :=
  mk (type d) (cmd d) (order d) (orderby d) (symbol d) (volume d) (price d) (sl d) v (comment d).
Definition set_comment (v : string) (d : t) : t :=
  mk (type d) (cmd d) (order d) (orderby d) (symbol d) (volume d) (price d) (sl d) (tp d) v.
End TradeTransInfo.

Module MarginLevel.
Record t := mk {
  balance : double; equity : double; margin : double;
  margin_free : double; margin_level : double }.
End MarginLevel.

Module OnlineRecord.
Record t := mk { login : Z }.
End OnlineRecord.

(** A buffer allocated by the SDK, as a list query hands it back: the
    pointer ([None] for [NULL]) and the count written through [&total]. *)
Definition buffer (R : Type) : Type := (option (list R) * Z)%type.

(** ** The SDK's interface

    [iface] is what stands behind the [CManagerInterface*]: every method takes
    the SDK's state and returns its answer with the state that follows.
    [IsConnected] and [ErrorDescription] only observe. *)
Class CManagerInterface := {
  iface : Type;
  (* enumerations of MT4ManagerAPI.h *)
  ManAPIVersion : Z;
  RET_OK : Z;
  OP_BUY : Z; OP_SELL : Z; OP_BUY_LIMIT : Z; OP_SELL_LIMIT : Z;
  OP_BUY_STOP : Z; OP_SELL_STOP : Z; OP_BALANCE : Z; OP_CREDIT : Z;
  TT_BR_ORDER_OPEN : Z; TT_BR_ORDER_CLOSE : Z; TT_BR_ORDER_MODIFY : Z;
  (* sizeof(TradeTransInfo::symbol), sizeof(TradeTransInfo::comment) *)
  sizeof_symbol : nat; sizeof_comment : nat;
  (* CManagerFactory *)
  factory_IsValid : bool;
  factory_Create : Z -> option iface;
  (* CManagerInterface *)
  Connect : string -> iface -> Z * iface;
  Login : Z -> string -> iface -> Z * iface;
  Disconnect : iface -> iface;
  IsConnected : iface -> Z;
  ErrorDescription : Z -> iface -> string;
  ServerTime : iface -> Z * iface;
  UsersRequest : iface -> buffer UserRecord.t * iface;
  UserRecordGet : Z -> iface -> Z * UserRecord.t * iface;
  SymbolsGetAll : iface -> buffer ConSymbol.t * iface;
  SymbolGet : string -> iface -> Z * ConSymbol.t * iface;
  SymbolInfoGet : string -> iface -> Z * SymbolInfo.t * iface;
  TradesRequest : iface -> buffer TradeRecord.t * iface;
  TradesGetByLogin : Z -> option string -> iface -> buffer TradeRecord.t * iface;
  TradesGetBySymbol : string -> iface -> buffer TradeRecord.t * iface;
  TradeRecordGet : Z -> iface -> Z * TradeRecord.t * iface;
  TradeTransaction : TradeTransInfo.t -> iface -> Z * iface;
  MarginLevelRequest : Z -> iface -> Z * MarginLevel.t * iface;
  OnlineRequest : iface -> buffer OnlineRecord.t * iface;
  MemFree : iface -> iface
}.

(** ** Record views *)

Module MT4Account.
Record t := mk { user : UserRecord.t }.
Definition getLogin (a : t) : Z := UserRecord.login (user a).
Definition getBalance (a : t) : double := UserRecord.balance (user a).
Definition getCredit (a : t) : double := UserRecord.credit (user a).
Definition getLeverage (a : t) : Z := UserRecord.leverage (user a).
End MT4Account.

Module MT4Symbol.
(** [info] is left uninitialised by the one-argument constructor: [None]. *)
Record t := mk {
  symbol : ConSymbol.t; info : option SymbolInfo.t; has_info : bool }.

(** [MT4Symbol(const ConSymbol&)] *)
Definition of_symbol (symbol_data : ConSymbol.t) : t :=
  mk symbol_data None false.

(** [MT4Symbol(const ConSymbol&, const SymbolInfo&)] *)
Definition of_symbol_info (symbol_data : ConSymbol.t) (symbol_info : SymbolInfo.t) : t :=
  mk symbol_data (Some symbol_info) true.

Definition getName (s : t) : string := ConSymbol.symbol (symbol s).
Definition hasCurrentInfo (s : t) : bool := has_info s.
Definition getBid (s : t) : double :=
  if has_info s then match info s with Some i => SymbolInfo.bid i | None => dzero end
  else dzero.
Definition getAsk (s : t) : double :=
  if has_info s then match info s with Some i => SymbolInfo.ask i | None => dzero end
  else dzero.
Definition getLastTime (s : t) : Z :=
  if has_info s then match info s with Some i => SymbolInfo.lasttime i | None => 0 end
  else 0.
End MT4Symbol.

Module MT4Trade.
Record t := mk { trade : TradeRecord.t }.
Definition getTicket (x : t) : Z := TradeRecord.order (trade x).
Definition getLogin (x : t) : Z := TradeRecord.login (trade x).
Definition getSymbol (x : t) : string := TradeRecord.symbol (trade x).
Definition getType (x : t) : Z := TradeRecord.cmd (trade x).
Definition getVolume (x : t) : Z := TradeRecord.volume (trade x).
Definition getOpenTime (x : t) : Z := TradeRecord.open_time (trade x).
Definition getCloseTime (x : t) : Z := TradeRecord.close_time (trade x).

(** [bool isOpen() const { return trade.close_time == 0; }] *)
Definition isOpen (x : t) : bool := TradeRecord.close_time (trade x) =? 0.

(** The [switch (trade.cmd)] of [getTypeAsString]. *)
Definition getTypeAsString `{CManagerInterface} (x : t) : string :=
  let c := TradeRecord.cmd (trade x) in
  if c =? OP_BUY then "Buy"%string
  else if c =? OP_SELL then "Sell"%string
  else if c =? OP_BUY_LIMIT then "Buy Limit"%string
  else if c =? OP_SELL_LIMIT then "Sell Limit"%string
  else if c =? OP_BUY_STOP then "Buy Stop"%string
  else if c =? OP_SELL_STOP then "Sell Stop"%string
  else if c =? OP_BALANCE then "Balance"%string
  else if c =? OP_CREDIT then "Credit"%string
  else "Unknown"%string.
End MT4Trade.

(** ** The adapter

    Every method takes the adapter's fields and returns its result with the
    fields that follow.  The guard [if (!isValid() || !m_logged_in)] that
    opens each query reads here as the fall-through case of a match on
    [m_manager st, m_logged_in st]: the first case is the one where the
    pointer is set, to an interface in state [w], and the flag is up. *)

Module MT4Manager.
Section Adapter.
Context `{API : CManagerInterface}.

(** The fields of [class MT4Manager]; [m_manager] is [None] for [NULL] and
    otherwise carries the SDK's state behind the pointer. *)
Record t := mk {
  m_manager : option iface;
  m_connected : bool;
  m_logged_in : bool;
  m_server : string;
  m_login : Z;
  m_last_error : string }.

Definition set_manager (w : iface) (st : t) : t :=
  mk (Some w) (m_connected st) (m_logged_in st) (m_server st) (m_login st) (m_last_error st).
Definition set_last_error (e : string) (st : t) : t :=
  mk (m_manager st) (m_connected st) (m_logged_in st) (m_server st) (m_login st) e.

(** [void setLastError(int code)] *)
Definition setLastError (code : Z) (st : t) : t :=
  match m_manager st with
  | Some w => set_last_error (ErrorDescription code w) st
  | None => set_last_error "Manager interface not initialized" st
  end.

(** [MT4Manager()]; the Winsock start-up has no part in the fields. *)
Definition construct : t :=
  mk (if factory_IsValid then factory_Create ManAPIVersion else None)
     false false EmptyString 0 EmptyString.

(** [bool isValid() const] *)
Definition isValid (st : t) : bool :=
  match m_manager st with Some _ => true | None => false end.

(** [const char* getLastError() const] *)
Definition getLastError (st : t) : string := m_last_error st.

(** [bool connect(const char* server)] *)
Definition connect (server : string) (st : t) : bool * t :=
  match m_manager st with
  | None => (false, set_last_error "Manager interface not initialized" st)
  | Some w =>
      let '(res, w) := Connect server w in
      let st := set_manager w st in
      if negb (res =? RET_OK) then (false, setLastError res st)
      else (true, mk (m_manager st) true (m_logged_in st) server (m_login st) (m_last_error st))
  end.

(** [bool login(int login, const char* password)] *)
Definition login (login : Z) (password : string) (st : t) : bool * t :=
  match m_manager st, m_connected st with
  | Some w, true =>
      let '(res, w) := Login login password w in
      let st := set_manager w st in
      if negb (res =? RET_OK) then (false, setLastError res st)
      else (true, mk (m_manager st) (m_connected st) true (m_server st) login (m_last_error st))
  | _, _ => (false, set_last_error "Not connected to server" st)
  end.

(** [void disconnect()] *)
Definition disconnect (st : t) : t :=
  match m_manager st, m_connected st with
  | Some w, true =>
      mk (Some (Disconnect w)) false false (m_server st) (m_login st) (m_last_error st)
  | _, _ => st
  end.

(** [bool isConnected() const] *)
Definition isConnected (st : t) : bool :=
  m_connected st &&
  match m_manager st with
  | Some w => negb (IsConnected w =? 0)
  | None => false
  end.

(** [bool isLoggedIn() const] *)
Definition isLoggedIn (st : t) : bool := m_logged_in st.

(** [time_t getServerTime()] *)
Definition getServerTime (st : t) : Z * t :=
  match m_manager st, m_logged_in st with
  | Some w, true =>
      let '(now, w) := ServerTime w in (now, set_manager w st)
  | _, _ => (0, st)
  end.

(** The body shared by the list queries, after the SDK call:
    [if (p && total > 0) { for (i < total) out.push_back(V(p[i])); MemFree(p); }].
    The copy stops at the end of the buffer. *)
Definition marshal {R V : Type} (view : R -> V) (b : buffer R) (w : iface)
  : list V * iface :=
  match b with
  | (Some p, total) =>
      if 0 <? total then (map view (firstn (Z.to_nat total) p), MemFree w)
      else ([], w)
  | (None, _) => ([], w)
  end.

(** [std::vector<MT4Account> getAccounts()] *)
Definition getAccounts (st : t) : list MT4Account.t * t :=
  match m_manager st, m_logged_in st with
  | Some w, true =>
      let '(users, w) := UsersRequest w in
      let '(accounts, w) := marshal MT4Account.mk users w in
      (accounts, set_manager w st)
  | _, _ => ([], st)
  end.

(** [MT4Account* getAccount(int login)] *)
Definition getAccount (login : Z) (st : t) : option MT4Account.t * t :=
  match m_manager st, m_logged_in st with
  | Some w, true =>
      let '(res, user, w) := UserRecordGet login w in
      let st := set_manager w st in
      if negb (res =? RET_OK) then (None, setLastError res st)
      else (Some (MT4Account.mk user), st)
  | _, _ => (None, st)
  end.

(** [std::vector<MT4Symbol> getSymbols()] *)
Definition getSymbols (st : t) : list MT4Symbol.t * t :=
  match m_manager st, m_logged_in st with
  | Some w, true =>
      let '(syms, w) := SymbolsGetAll w in
      let '(symbols, w) := marshal MT4Symbol.of_symbol syms w in
      (symbols, set_manager w st)
  | _, _ => ([], st)
  end.

(** [MT4Symbol* getSymbol(const char* symbol_name)] *)
Definition getSymbol (symbol_name : string) (st : t) : option MT4Symbol.t * t :=
  match m_manager st, m_logged_in st with
  | Some w, true =>
      let '(res, cs, w) := SymbolGet symbol_name w in
      let st := set_manager w st in
      if negb (res =? RET_OK) then (None, setLastError res st)
      else
        let '(res, si, w) := SymbolInfoGet symbol_name w in
        let st := set_manager w st in
        if res =? RET_OK then (Some (MT4Symbol.of_symbol_info cs si), st)
        else (Some (MT4Symbol.of_symbol cs), st)
  | _, _ => (None, st)
  end.

(** [std::vector<MT4Trade> getTrades()] *)
Definition getTrades (st : t) : list MT4Trade.t * t :=
  match m_manager st, m_logged_in st with
  | Some w, true =>
      let '(tr, w) := TradesRequest w in
      let '(trades, w) := marshal MT4Trade.mk tr w in
      (trades, set_manager w st)
  | _, _ => ([], st)
  end.

(** [std::vector<MT4Trade> getTradesByLogin(int login)] *)
Definition getTradesByLogin (login : Z) (st : t) : list MT4Trade.t * t :=
  match m_manager st, m_logged_in st with
  | Some w, true =>
      let '(tr, w) := TradesGetByLogin login None w in
      let '(trades, w) := marshal MT4Trade.mk tr w in
      (trades, set_manager w st)
  | _, _ => ([], st)
  end.

(** [std::vector<MT4Trade> getTradesBySymbol(const char* symbol)] *)
Definition getTradesBySymbol (symbol : string) (st : t) : list MT4Trade.t * t :=
  match m_manager st, m_logged_in st with
  | Some w, true =>
      let '(tr, w) := TradesGetBySymbol symbol w in
      let '(trades, w) := marshal MT4Trade.mk tr w in
      (trades, set_manager w st)
  | _, _ => ([], st)
  end.

(** [MT4Trade* getTradeByTicket(int ticket)] *)
Definition getTradeByTicket (ticket : Z) (st : t) : option MT4Trade.t * t :=
  match m_manager st, m_logged_in st with
  | Some w, true =>
      let '(res, trade, w) := TradeRecordGet ticket w in
      let st := set_manager w st in
      if negb (res =? RET_OK) then (None, setLastError res st)
      else (Some (MT4Trade.mk trade), st)
  | _, _ => (None, st)
  end.

(** Lines 489-501 of [openTrade]: the transaction descriptor. *)
Definition open_descriptor (login : Z) (symbol : string) (cmd : Z)
    (volume price sl tp : double) (comment : option string) : TradeTransInfo.t :=
  let trade := TradeTransInfo.zero in
  let trade := TradeTransInfo.set_type TT_BR_ORDER_OPEN trade in
  let trade := TradeTransInfo.set_cmd (int_to_short cmd) trade in
  let trade := TradeTransInfo.set_orderby login trade in
  let trade := TradeTransInfo.set_symbol (strncpy symbol (Nat.pred sizeof_symbol)) trade in
  let trade := TradeTransInfo.set_volume (double_to_int (dmul volume d100)) trade in
  let trade := TradeTransInfo.set_price price trade in
  let trade := TradeTransInfo.set_sl sl trade in
  let trade := TradeTransInfo.set_tp tp trade in
  match comment with
  | Some (String _ _ as c) =>
      TradeTransInfo.set_comment (strncpy c (Nat.pred sizeof_comment)) trade
  | Some EmptyString | None => trade
  end.

(** One turn of the loop of lines 518-523, on [(newest_time, order_ticket)]. *)
Definition newest_step (acc : Z * Z) (r : TradeRecord.t) : Z * Z :=
  let '(newest_time, order_ticket) := acc in
  if newest_time <? TradeRecord.open_time r
  then (TradeRecord.open_time r, TradeRecord.order r)
  else (newest_time, order_ticket).

(** The loop of lines 516-523 over the records it visits. *)
Definition newest_ticket (trades : list TradeRecord.t) : Z :=
  snd (fold_left newest_step trades (0, 0)).

(** Lines 512-526 of [openTrade], after [TradesGetByLogin]. *)
Definition find_new_order (b : buffer TradeRecord.t) (w : iface) : Z * iface :=
  match b with
  | (Some trades, total) =>
      if 0 <? total
      then (newest_ticket (firstn (Z.to_nat total) trades), MemFree w)
      else (0, w)
  | (None, _) => (0, w)
  end.

(** The records that loop visits in a fetched buffer: none when the pointer
    is null or the count is not positive. *)
Definition visited (b : buffer TradeRecord.t) : list TradeRecord.t :=
  match b with
  | (Some trades, total) =>
      if 0 <? total then firstn (Z.to_nat total) trades else []
  | (None, _) => []
  end.

(** [int openTrade(int login, const char* symbol, int cmd, double volume,
    double price, double sl, double tp, const char* comment)] *)
Definition openTrade (login : Z) (symbol : string) (cmd : Z)
    (volume price sl tp : double) (comment : option string) (st : t) : Z * t :=
  match m_manager st, m_logged_in st with
  | Some w, true =>
      let trade := open_descriptor login symbol cmd volume price sl tp comment in
      let '(res, w) := TradeTransaction trade w in
      let st := set_manager w st in
      if negb (res =? RET_OK) then (0, setLastError res st)
      else
        let '(trades, w) := TradesGetByLogin login None w in
        let '(order_ticket, w) := find_new_order trades w in
        (order_ticket, set_manager w st)
  | _, _ => (0, set_last_error "Not connected or not logged in" st)
  end.

(** Lines 538-544 of [closeTrade]: the transaction descriptor. *)
Definition close_descriptor (ticket : Z) (price : double) : TradeTransInfo.t :=
  let trade := TradeTransInfo.zero in
  let trade := TradeTransInfo.set_type TT_BR_ORDER_CLOSE trade in
  let trade := TradeTransInfo.set_order ticket trade in
  if dgt price dzero then TradeTransInfo.set_price price trade else trade.

(** [bool closeTrade(int ticket, double price)] *)
Definition closeTrade (ticket : Z) (price : double) (st : t) : bool * t :=
  match m_manager st, m_logged_in st with
  | Some w, true =>
      let trade := close_descriptor ticket price in
      let '(res, w) := TradeTransaction trade w in
      let st := set_manager w st in
      if negb (res =? RET_OK) then (false, setLastError res st)
      else (true, st)
  | _, _ => (false, set_last_error "Not connected or not logged in" st)
  end.

(** Lines 562-566 of [modifyTrade]: the transaction descriptor. *)
Definition modify_descriptor (ticket : Z) (sl tp : double) : TradeTransInfo.t :=
  let trade := TradeTransInfo.zero in
  let trade := TradeTransInfo.set_type TT_BR_ORDER_MODIFY trade in
  let trade := TradeTransInfo.set_order ticket trade in
  let trade := TradeTransInfo.set_sl sl trade in
  TradeTransInfo.set_tp tp trade.

(** [bool modifyTrade(int ticket, double sl, double tp)] *)
Definition modifyTrade (ticket : Z) (sl tp : double) (st : t) : bool * t :=
  match m_manager st, m_logged_in st with
  | Some w, true =>
      let trade := modify_descriptor ticket sl tp in
      let '(res, w) := TradeTransaction trade w in
      let st := set_manager w st in
      if negb (res =? RET_OK) then (false, setLastError res st)
      else (true, st)
  | _, _ => (false, set_last_error "Not connected or not logged in" st)
  end.

(** The five [double&] arguments of [getMarginLevel]. *)
Record margin_refs := mk_refs {
  r_balance : double; r_equity : double; r_margin : double;
  r_free_margin : double; r_margin_level : double }.

(** [bool getMarginLevel(int login, double& balance, double& equity,
    double& margin, double& free_margin, double& margin_level)] *)
Definition getMarginLevel (login : Z) (refs : margin_refs) (st : t)
  : bool * margin_refs * t :=
  match m_manager st, m_logged_in st with
  | Some w, true =>
      let '(res, ml, w) := MarginLevelRequest login w in
      let st := set_manager w st in
      if negb (res =? RET_OK) then (false, refs, setLastError res st)
      else (true,
            mk_refs (MarginLevel.balance ml) (MarginLevel.equity ml)
                    (MarginLevel.margin ml) (MarginLevel.margin_free ml)
                    (MarginLevel.margin_level ml),
            st)
  | _, _ => (false, refs, set_last_error "Not connected or not logged in" st)
  end.

(** [int getOnlineUsersCount()] *)
Definition getOnlineUsersCount (st : t) : Z * t :=
  match m_manager st, m_logged_in st with
  | Some w, true =>
      let '((online, total), w) := OnlineRequest w in
      let w := match online with Some _ => MemFree w | None => w end in
      (total, set_manager w st)
  | _, _ => (0, st)
  end.

(** [bool isUserOnline(int login)] *)
Definition isUserOnline (login : Z) (st : t) : bool * t :=
  match m_manager st, m_logged_in st with
  | Some w, true =>
      let '((online, total), w) := OnlineRequest w in
      match online with
      | Some p =>
          if 0 <? total
          then (existsb (fun r => OnlineRecord.login r =? login)
                        (firstn (Z.to_nat total) p),
                set_manager (MemFree w) st)
          else (false, set_manager w st)
      | None => (false, set_manager w st)
      end
  | _, _ => (false, st)
  end.

(** *** The query and trade operations as one family

    Every public method that asks the SDK for data or submits a
    transaction, with its arguments, and what it hands back. *)
Inductive operation :=
| GetServerTime
| GetAccounts
| GetAccount (login : Z)
| GetSymbols
| GetSymbol (symbol_name : string)
| GetTrades
| GetTradesByLogin (login : Z)
| GetTradesBySymbol (symbol : string)
| GetTradeByTicket (ticket : Z)
| OpenTrade (login : Z) (symbol : string) (cmd : Z)
            (volume price sl tp : double) (comment : option string)
| CloseTrade (ticket : Z) (price : double)
| ModifyTrade (ticket : Z) (sl tp : double)
| GetMarginLevel (login : Z) (refs : margin_refs)
| GetOnlineUsersCount
| IsUserOnline (login : Z).

Inductive result :=
| RTime (z : Z)
| RInt (z : Z)
| RBool (b : bool)
| RMargin (b : bool) (refs : margin_refs)
| RAccounts (l : list MT4Account.t)
| RAccount (o : option MT4Account.t)
| RSymbols (l : list MT4Symbol.t)
| RSymbol (o : option MT4Symbol.t)
| RTrades (l : list MT4Trade.t)
| RTrade (o : option MT4Trade.t).

Definition with_result {A : Type} (wrap : A -> result) (r : A * t) : result * t :=
  (wrap (fst r), snd r).

Definition run (op : operation) (st : t) : result * t :=
  match op with
  | GetServerTime => with_result RTime (getServerTime st)
  | GetAccounts => with_result RAccounts (getAccounts st)
  | GetAccount login => with_result RAccount (getAccount login st)
  | GetSymbols => with_result RSymbols (getSymbols st)
  | GetSymbol symbol_name => with_result RSymbol (getSymbol symbol_name st)
  | GetTrades => with_result RTrades (getTrades st)
  | GetTradesByLogin login => with_result RTrades (getTradesByLogin login st)
  | GetTradesBySymbol symbol => with_result RTrades (getTradesBySymbol symbol st)
  | GetTradeByTicket ticket => with_result RTrade (getTradeByTicket ticket st)
  | OpenTrade login symbol cmd volume price sl tp comment =>
      with_result RInt (openTrade login symbol cmd volume price sl tp comment st)
  | CloseTrade ticket price => with_result RBool (closeTrade ticket price st)
  | ModifyTrade ticket sl tp => with_result RBool (modifyTrade ticket sl tp st)
  | GetMarginLevel login refs =>
      let r := getMarginLevel login refs st in
      (RMargin (fst (fst r)) (snd (fst r)), snd r)
  | GetOnlineUsersCount => with_result RInt (getOnlineUsersCount st)
  | IsUserOnline login => with_result RBool (isUserOnline login st)
  end.

(** What each operation hands back when it fails: the empty sequence,
    the null pointer, [false] (the references untouched) or zero. *)
Definition failure (op : operation) : result :=
  match op with
  | GetServerTime => RTime 0
  | GetAccounts => RAccounts []
  | GetAccount _ => RAccount None
  | GetSymbols => RSymbols []
  | GetSymbol _ => RSymbol None
  | GetTrades | GetTradesByLogin _ | GetTradesBySymbol _ => RTrades []
  | GetTradeByTicket _ => RTrade None
  | OpenTrade _ _ _ _ _ _ _ _ => RInt 0
  | CloseTrade _ _ | ModifyTrade _ _ _ => RBool false
  | GetMarginLevel _ refs => RMargin false refs
  | GetOnlineUsersCount => RInt 0
  | IsUserOnline _ => RBool false
  end.

(** *** The session state machine

    The states the adapter can be in after construction and any number of
    [connect], [login] and [disconnect] calls, with queries and trades in
    between, whatever the SDK answers. *)
Inductive reachable : t -> Prop :=
| reach_construct : reachable construct
| reach_connect : forall st server,
    reachable st -> reachable (snd (connect server st))
| reach_login : forall st l password,
    reachable st -> reachable (snd (login l password st))
| reach_disconnect : forall st,
    reachable st -> reachable (disconnect st)
| reach_run : forall st op,
    reachable st -> reachable (snd (run op st)).
End Adapter.
End MT4Manager.

(** ** The identification pass in the specification's words

    Of the fetched records, the one with the maximum open time, the last such
    in iteration order when several share it; zero for an empty fetch. *)
Definition spec_newest_ticket (records : list TradeRecord.t) : Z :=
  match records with
  | [] => 0
  | r :: rest =>
      let newest :=
        fold_left Z.max (map TradeRecord.open_time rest) (TradeRecord.open_time r) in
      match find (fun x => TradeRecord.open_time x =? newest) (rev records) with
      | Some x => TradeRecord.order x
      | None => 0
      end
  end.

(** ** A stub SDK

    A scripted peer for running the adapter on concrete inputs: it answers
    with the codes and buffers it was configured with, and records what it
    was asked.  Its enumerations are numbered after the MetaTrader 4
    Manager API header. *)
Module Stub.
Record sdk := mk {
  connect_code : Z;
  login_code : Z;
  trans_code : Z;
  symbol_code : Z;
  info_code : Z;
  users : buffer UserRecord.t;
  trades : buffer TradeRecord.t;
  online : buffer OnlineRecord.t;
  submitted : list TradeTransInfo.t;
  freed : nat;
  link_up : bool }.

Definition no_user : UserRecord.t :=
  UserRecord.mk 0 EmptyString EmptyString EmptyString dzero dzero 0 0 0.
Definition no_symbol : ConSymbol.t :=
  ConSymbol.mk EmptyString EmptyString EmptyString 0 dzero 0 dzero dzero dzero.
Definition no_info : SymbolInfo.t := SymbolInfo.mk dzero dzero 0.
Definition no_trade : TradeRecord.t :=
  TradeRecord.mk 0 0 EmptyString 0 0 dzero dzero dzero dzero 0 0 dzero dzero dzero EmptyString.
Definition no_margin : MarginLevel.t :=
  MarginLevel.mk dzero dzero dzero dzero dzero.

Definition describe (code : Z) : string :=
  if code =? 0 then "OK"
  else if code =? 2 then "Common error"
  else if code =? 3 then "Invalid information"
  else "Unknown error".

Definition submit (d : TradeTransInfo.t) (w : sdk) : Z * sdk :=
  (trans_code w,
   mk (connect_code w) (login_code w) (trans_code w) (symbol_code w) (info_code w)
      (users w) (trades w) (online w) (d :: submitted w) (freed w) (link_up w)).

Definition free (w : sdk) : sdk :=
  mk (connect_code w) (login_code w) (trans_code w) (symbol_code w) (info_code w)
     (users w) (trades w) (online w) (submitted w) (S (freed w)) (link_up w).

Definition link (up : bool) (w : sdk) : sdk :=
  mk (connect_code w) (login_code w) (trans_code w) (symbol_code w) (info_code w)
     (users w) (trades w) (online w) (submitted w) (freed w) up.

Definition find_trade (ticket : Z) (w : sdk) : option TradeRecord.t :=
  match fst (trades w) with
  | Some p => find (fun r => TradeRecord.order r =? ticket) p
  | None => None
  end.

Definition api : CManagerInterface := {|
  iface := sdk;
  ManAPIVersion := 26215755;
  RET_OK := 0;
  OP_BUY := 0; OP_SELL := 1; OP_BUY_LIMIT := 2; OP_SELL_LIMIT := 3;
  OP_BUY_STOP := 4; OP_SELL_STOP := 5; OP_BALANCE := 6; OP_CREDIT := 7;
  TT_BR_ORDER_OPEN := 75; TT_BR_ORDER_CLOSE := 76; TT_BR_ORDER_MODIFY := 80;
  sizeof_symbol := 12; sizeof_comment := 32;
  factory_IsValid := true;
  factory_Create := fun _ =>
    Some (mk 0 0 0 0 0 (None, 0) (None, 0) (None, 0) [] 0%nat false);
  Connect := fun _ w => (connect_code w, link (connect_code w =? 0) w);
  Login := fun _ _ w => (login_code w, w);
  Disconnect := link false;
  IsConnected := fun w => if link_up w then 1 else 0;
  ErrorDescription := fun code _ => describe code;
  ServerTime := fun w => (1700000000, w);
  UsersRequest := fun w => (users w, w);
  UserRecordGet := fun _ w => (2, no_user, w);
  SymbolsGetAll := fun w => ((None, 0), w);
  SymbolGet := fun name w =>
    (symbol_code w, ConSymbol.mk name EmptyString EmptyString 5 dzero 0 dzero dzero dzero, w);
  SymbolInfoGet := fun _ w => (info_code w, no_info, w);
  TradesRequest := fun w => (trades w, w);
  TradesGetByLogin := fun _ _ w => (trades w, w);
  TradesGetBySymbol := fun _ w => (trades w, w);
  TradeRecordGet := fun ticket w =>
    match find_trade ticket w with
    | Some r => (0, r, w)
    | None => (2, no_trade, w)
    end;
  TradeTransaction := submit;
  MarginLevelRequest := fun _ w => (2, no_margin, w);
  OnlineRequest := fun w => (online w, w);
  MemFree := free
|}.

(** The adapter over this SDK, and an authenticated session on a peer [w]. *)
Definition manager : Type := @MT4Manager.t api.

Definition authenticated (w : sdk) : manager :=
  @MT4Manager.mk api (Some w) true true "demo.broker:443" 12345 EmptyString.

(** A peer that accepts everything and holds the given trades. *)
Definition holding (p : list TradeRecord.t) : sdk :=
  mk 0 0 0 0 0 (None, 0) (Some p, Z.of_nat (List.length p)) (None, 0) [] 0%nat true.

Definition a_trade (ticket open_time : Z) : TradeRecord.t :=
  TradeRecord.mk ticket 12345 "EURUSD" 0 10 dzero dzero dzero dzero
                 open_time 0 dzero dzero dzero EmptyString.

(** The transactions the peer of an adapter has received, newest first. *)
Definition log (st : manager) : list TradeTransInfo.t :=
  match MT4Manager.m_manager st with
  | Some w => submitted w
  | None => []
  end.

(** A peer whose symbol and quote fetches answer with the given codes. *)
Definition quoting (primary secondary : Z) : sdk :=
  mk 0 0 0 primary secondary (None, 0) (None, 0) (None, 0) [] 0%nat true.

(** Some doubles: 0.10, 0.29, 1.095, 1e10, -0.015 and -2.5. *)
Definition d0_29 : double := S754_finite false 5224175567749775 (-54).
Definition dm2_5 : double := S754_finite true 5629499534213120 (-51).
Definition d0_10 : double := S754_finite false 7205759403792794 (-56).
Definition d1_095 : double := S754_finite false 4931441591970693 (-52).
Definition d1e10 : double := S754_finite false 5242880000000000 (-19).
Definition dm0_015 : double := S754_finite true 8646911284551352 (-59).
End Stub.

(** ** A peer whose factory fails

    The stub SDK again, with a factory that reports itself unusable, as when
    the SDK's library cannot be loaded. *)
Module Faulty.
Definition api : CManagerInterface := {|
  iface := Stub.sdk;
  ManAPIVersion := @ManAPIVersion Stub.api;
  RET_OK := @RET_OK Stub.api;
  OP_BUY := @OP_BUY Stub.api; OP_SELL := @OP_SELL Stub.api;
  OP_BUY_LIMIT := @OP_BUY_LIMIT Stub.api; OP_SELL_LIMIT := @OP_SELL_LIMIT Stub.api;
  OP_BUY_STOP := @OP_BUY_STOP Stub.api; OP_SELL_STOP := @OP_SELL_STOP Stub.api;
  OP_BALANCE := @OP_BALANCE Stub.api; OP_CREDIT := @OP_CREDIT Stub.api;
  TT_BR_ORDER_OPEN := @TT_BR_ORDER_OPEN Stub.api;
  TT_BR_ORDER_CLOSE := @TT_BR_ORDER_CLOSE Stub.api;
  TT_BR_ORDER_MODIFY := @TT_BR_ORDER_MODIFY Stub.api;
  sizeof_symbol := @sizeof_symbol Stub.api;
  sizeof_comment := @sizeof_comment Stub.api;
  factory_IsValid := false;
  factory_Create := @factory_Create Stub.api;
  Connect := @Connect Stub.api;
  Login := @Login Stub.api;
  Disconnect := @Disconnect Stub.api;
  IsConnected := @IsConnected Stub.api;
  ErrorDescription := @ErrorDescription Stub.api;
  ServerTime := @ServerTime Stub.api;
  UsersRequest := @UsersRequest Stub.api;
  UserRecordGet := @UserRecordGet Stub.api;
  SymbolsGetAll := @SymbolsGetAll Stub.api;
  SymbolGet := @SymbolGet Stub.api;
  SymbolInfoGet := @SymbolInfoGet Stub.api;
  TradesRequest := @TradesRequest Stub.api;
  TradesGetByLogin := @TradesGetByLogin Stub.api;
  TradesGetBySymbol := @TradesGetBySymbol Stub.api;
  TradeRecordGet := @TradeRecordGet Stub.api;
  TradeTransaction := @TradeTransaction Stub.api;
  MarginLevelRequest := @MarginLevelRequest Stub.api;
  OnlineRequest := @OnlineRequest Stub.api;
  MemFree := @MemFree Stub.api
|}.
End Faulty.

(** ** A peer with a symbol catalogue

    The stub SDK again, answering [SymbolsGetAll] with the given buffer. *)
Module Catalogue.
Definition api (symbols : buffer ConSymbol.t) : CManagerInterface := {|
  iface := Stub.sdk;
  ManAPIVersion := @ManAPIVersion Stub.api;
  RET_OK := @RET_OK Stub.api;
  OP_BUY := @OP_BUY Stub.api; OP_SELL := @OP_SELL Stub.api;
  OP_BUY_LIMIT := @OP_BUY_LIMIT Stub.api; OP_SELL_LIMIT := @OP_SELL_LIMIT Stub.api;
  OP_BUY_STOP := @OP_BUY_STOP Stub.api; OP_SELL_STOP := @OP_SELL_STOP Stub.api;
  OP_BALANCE := @OP_BALANCE Stub.api; OP_CREDIT := @OP_CREDIT Stub.api;
  TT_BR_ORDER_OPEN := @TT_BR_ORDER_OPEN Stub.api;
  TT_BR_ORDER_CLOSE := @TT_BR_ORDER_CLOSE Stub.api;
  TT_BR_ORDER_MODIFY := @TT_BR_ORDER_MODIFY Stub.api;
  sizeof_symbol := @sizeof_symbol Stub.api;
  sizeof_comment := @sizeof_comment Stub.api;
  factory_IsValid := @factory_IsValid Stub.api;
  factory_Create := @factory_Create Stub.api;
  Connect := @Connect Stub.api;
  Login := @Login Stub.api;
  Disconnect := @Disconnect Stub.api;
  IsConnected := @IsConnected Stub.api;
  ErrorDescription := @ErrorDescription Stub.api;
  ServerTime := @ServerTime Stub.api;
  UsersRequest := @UsersRequest Stub.api;
  UserRecordGet := @UserRecordGet Stub.api;
  SymbolsGetAll := fun w => (symbols, w);
  SymbolGet := @SymbolGet Stub.api;
  SymbolInfoGet := @SymbolInfoGet Stub.api;
  TradesRequest := @TradesRequest Stub.api;
  TradesGetByLogin := @TradesGetByLogin Stub.api;
  TradesGetBySymbol := @TradesGetBySymbol Stub.api;
  TradeRecordGet := @TradeRecordGet Stub.api;
  TradeTransaction := @TradeTransaction Stub.api;
  MarginLevelRequest := fun _ w =>
    (0, MarginLevel.mk Stub.d1_095 Stub.d1_095 Stub.d0_10 Stub.d0_29 d100, w);
  OnlineRequest := @OnlineRequest Stub.api;
  MemFree := @MemFree Stub.api
|}.

(** An authenticated session over it. *)
Definition authenticated (symbols : buffer ConSymbol.t) (w : Stub.sdk)
  : @MT4Manager.t (api symbols) :=
  @MT4Manager.mk (api symbols) (Some w) true true "demo.broker:443" 12345 EmptyString.
End Catalogue.

(** ** Snapshots

    [out] is a copy of the first [total] records of the buffer [p], each
    wrapped by [view]. *)
Definition snapshot_of {R V : Type} (view : R -> V) (p : list R) (total : Z)
    (out : list V) : Prop :=
  Z.of_nat (List.length out) = total /\
  forall i r, Z.of_nat i < total -> nth_error p i = Some r ->
              nth_error out i = Some (view r).

(** * Properties *)

Import MT4Manager.

Ltac by_guard st :=
  destruct (m_manager st) as [?w|] eqn:?Hmgr;
  destruct (m_logged_in st) eqn:?Hlog.

(** ** Record views *)

(** C9: a trade is open exactly when its close time is zero. *)
Theorem isOpen_iff_close_time_zero (x : MT4Trade.t) :
  MT4Trade.isOpen x = true <-> MT4Trade.getCloseTime x = 0.
Proof.
  unfold MT4Trade.isOpen, MT4Trade.getCloseTime.
  apply Z.eqb_eq.
Qed.

Example isOpen_open_trade :
  MT4Trade.isOpen (MT4Trade.mk (Stub.a_trade 7 100)) = true.
Proof. reflexivity. Qed.

(** ** Session state *)

(** C6: [isConnected] answers true exactly when the adapter's own flag is set
    and the SDK, asked through the interface, reports a live connection;
    [isLoggedIn] is the adapter's flag, whatever stands behind [m_manager]. *)
Theorem isConnected_polls_isLoggedIn_does_not `{CManagerInterface} (st : t) :
  (isConnected st = true <->
     m_connected st = true /\
     exists w, m_manager st = Some w /\ IsConnected w <> 0) /\
  isLoggedIn st = m_logged_in st /\
  (forall mgr : option iface,
     isLoggedIn (mk mgr (m_connected st) (m_logged_in st) (m_server st)
                    (m_login st) (m_last_error st)) = isLoggedIn st).
Proof.
  split; [|split; [reflexivity | intros; reflexivity]].
  unfold isConnected. rewrite andb_true_iff. split.
  - intros [Hc Hp]. split; [exact Hc|].
    destruct (m_manager st) as [w|]; [|discriminate].
    exists w. split; [reflexivity|].
    apply negb_true_iff, Z.eqb_neq in Hp. exact Hp.
  - intros [Hc [w [Hw Hp]]]. split; [exact Hc|].
    rewrite Hw. apply negb_true_iff, Z.eqb_neq. exact Hp.
Qed.

Lemma connect_keeps_logged_in `{CManagerInterface} (server : string) (st : t) :
  m_logged_in (snd (connect server st)) = m_logged_in st /\
  (m_connected st = true -> m_connected (snd (connect server st)) = true).
Proof.
  unfold connect. destruct (m_manager st) as [w|]; [|split; auto].
  destruct (Connect server w) as [res w'].
  destruct (negb (res =? RET_OK)); simpl; auto.
Qed.

Lemma login_needs_connected `{CManagerInterface} (l : Z) (password : string) (st : t) :
  m_logged_in (snd (login l password st)) = true ->
  m_logged_in st = true \/ m_connected st = true.
Proof.
  unfold login. destruct (m_manager st) as [w|]; [|simpl; auto].
  destruct (m_connected st); [auto|]. simpl; auto.
Qed.

Lemma login_keeps_connected `{CManagerInterface} (l : Z) (password : string) (st : t) :
  m_connected (snd (login l password st)) = m_connected st.
Proof.
  unfold login. destruct (m_manager st) as [w|]; [|reflexivity].
  destruct (m_connected st) eqn:Hc; [|simpl; congruence].
  destruct (Login l password w) as [res w'].
  destruct (negb (res =? RET_OK)); simpl; congruence.
Qed.

Lemma disconnect_flags `{CManagerInterface} (st : t) :
  disconnect st = st \/
  (m_connected (disconnect st) = false /\ m_logged_in (disconnect st) = false).
Proof.
  unfold disconnect. destruct (m_manager st) as [w|]; [|auto].
  destruct (m_connected st); simpl; auto.
Qed.

Lemma run_keeps_flags `{CManagerInterface} (op : operation) (st : t) :
  m_connected (snd (run op st)) = m_connected st /\
  m_logged_in (snd (run op st)) = m_logged_in st.
Proof.
  destruct op; unfold run, with_result,
    getServerTime, getAccounts, getAccount, getSymbols, getSymbol, getTrades,
    getTradesByLogin, getTradesBySymbol, getTradeByTicket, openTrade,
    closeTrade, modifyTrade, getMarginLevel, getOnlineUsersCount, isUserOnline,
    marshal, find_new_order;
  by_guard st; simpl; rewrite ?Hlog; auto;
  repeat (match goal with
          | |- context [match ?c with _ => _ end] => destruct c
          end; simpl; rewrite ?Hlog; auto).
Qed.

(** C7: in every state reached from construction by [connect], [login] and
    [disconnect], with any queries and trades in between, a set logged-in
    flag comes with a set connected flag. *)
Theorem authenticated_implies_connected `{CManagerInterface} (st : t) :
  reachable st -> m_logged_in st = true -> m_connected st = true.
Proof.
  induction 1 as [|st server Hr IH|st l password Hr IH|st Hr IH|st op Hr IH];
    intros Hl.
  - discriminate Hl.
  - destruct (connect_keeps_logged_in server st) as [Hk Hc].
    rewrite Hk in Hl. auto.
  - rewrite login_keeps_connected.
    destruct (login_needs_connected l password st Hl) as [Hp|Hc]; auto.
  - destruct (disconnect_flags st) as [He|[_ Hf]].
    + rewrite He in *. auto.
    + rewrite Hf in Hl. discriminate Hl.
  - destruct (run_keeps_flags op st) as [Hc Hk].
    rewrite Hk in Hl. rewrite Hc. auto.
Qed.

Lemma authenticated_implies_connected_witness :
  m_connected
    (snd (login (API := Stub.api) 12345 "pw"
            (snd (connect (API := Stub.api) "demo.broker:443" construct)))) = true.
Proof.
  apply authenticated_implies_connected.
  - apply reach_login, reach_connect, reach_construct.
  - reflexivity.
Defined.

(** C3: outside the authenticated state (no interface, or not logged in)
    every query and trade operation hands back its failure value and leaves
    the connected flag, the logged-in flag, the server label, the login and
    the interface as they were. *)
Theorem not_authenticated_fails `{CManagerInterface} (op : operation) (st : t) :
  isValid st = false \/ m_logged_in st = false ->
  fst (run op st) = failure op /\
  m_connected (snd (run op st)) = m_connected st /\
  m_logged_in (snd (run op st)) = m_logged_in st /\
  m_server (snd (run op st)) = m_server st /\
  m_login (snd (run op st)) = m_login st /\
  m_manager (snd (run op st)) = m_manager st.
Proof.
  intros Hnot.
  assert (Hg : m_manager st = None \/ m_logged_in st = false).
  { destruct Hnot as [Hv|Hl]; [left|right; exact Hl].
    unfold isValid in Hv. destruct (m_manager st); [discriminate|reflexivity]. }
  destruct op; unfold run, with_result, failure,
    getServerTime, getAccounts, getAccount, getSymbols, getSymbol, getTrades,
    getTradesByLogin, getTradesBySymbol, getTradeByTicket, openTrade,
    closeTrade, modifyTrade, getMarginLevel, getOnlineUsersCount, isUserOnline;
  by_guard st; destruct Hg as [Hg|Hg]; try discriminate Hg;
  simpl; rewrite ?Hmgr, ?Hlog; repeat split; reflexivity.
Qed.

Lemma not_authenticated_fails_witness :
  fst (run (API := Stub.api) GetAccounts construct) = RAccounts [] /\
  fst (run (API := Stub.api) (CloseTrade 7 dzero) construct) = RBool false.
Proof.
  split.
  - apply (not_authenticated_fails (H := Stub.api) GetAccounts construct).
    right. reflexivity.
  - apply (not_authenticated_fails (H := Stub.api) (CloseTrade 7 dzero) construct).
    right. reflexivity.
Defined.

(** ** Single-record queries *)

(** C8: in an authenticated session [getSymbol] hands back the null pointer,
    with the SDK's description of the code in the last-error slot, exactly
    when [SymbolGet] answers non-OK; otherwise it hands back an instrument
    over the symbol record [SymbolGet] filled in, which reports current
    prices exactly when [SymbolInfoGet] answers OK and then holds the record
    that call filled in, its bid, ask and last-update time. *)
Theorem getSymbol_null_iff_primary_fails `{CManagerInterface}
    (symbol_name : string) (st : t) (w : iface) :
  m_manager st = Some w ->
  m_logged_in st = true ->
  let primary := fst (fst (SymbolGet symbol_name w)) in
  let cs := snd (fst (SymbolGet symbol_name w)) in
  let w1 := snd (SymbolGet symbol_name w) in
  let secondary := fst (fst (SymbolInfoGet symbol_name w1)) in
  let si := snd (fst (SymbolInfoGet symbol_name w1)) in
  let out := getSymbol symbol_name st in
  (fst out = None <-> primary <> RET_OK) /\
  (primary <> RET_OK -> getLastError (snd out) = ErrorDescription primary w1) /\
  (primary = RET_OK ->
     exists s, fst out = Some s /\
               MT4Symbol.symbol s = cs /\
               (MT4Symbol.hasCurrentInfo s = true <-> secondary = RET_OK) /\
               (secondary = RET_OK ->
                MT4Symbol.info s = Some si /\
                MT4Symbol.getBid s = SymbolInfo.bid si /\
                MT4Symbol.getAsk s = SymbolInfo.ask si /\
                MT4Symbol.getLastTime s = SymbolInfo.lasttime si)).
Proof.
  intros Hmgr Hlog. cbv zeta. unfold getSymbol. rewrite Hmgr, Hlog.
  destruct (SymbolGet symbol_name w) as [[res cs] w1]. simpl.
  destruct (Z.eqb_spec res RET_OK) as [Heq|Hne]; simpl.
  - destruct (SymbolInfoGet symbol_name w1) as [[res2 si] w2]. simpl.
    destruct (Z.eqb_spec res2 RET_OK) as [Heq2|Hne2]; simpl.
    + split; [split; [discriminate | intros Hc; contradiction]|].
      split; [intros Hc; contradiction|]. intros _.
      eexists. split; [reflexivity|]. split; [reflexivity|].
      split; [simpl; tauto|]. intros _. repeat split.
    + split; [split; [discriminate | intros Hc; contradiction]|].
      split; [intros Hc; contradiction|]. intros _.
      eexists. split; [reflexivity|]. split; [reflexivity|].
      split; [simpl; split; [discriminate|contradiction]|].
      intros Hc. contradiction.
  - split; [tauto|]. split; [|contradiction].
    intros _. unfold getLastError, setLastError. reflexivity.
Qed.

Lemma getSymbol_null_iff_primary_fails_witness :
  (fst (getSymbol (API := Stub.api) "EURUSD"
          (Stub.authenticated (Stub.quoting 2 0))) = None <-> 2 <> 0) /\
  (exists s,
     fst (getSymbol (API := Stub.api) "EURUSD"
            (Stub.authenticated (Stub.quoting 0 3))) = Some s /\
     MT4Symbol.getName s = "EURUSD"%string /\
     (MT4Symbol.hasCurrentInfo s = true <-> 3 = 0)) /\
  (exists s,
     fst (getSymbol (API := Stub.api) "EURUSD"
            (Stub.authenticated (Stub.quoting 0 0))) = Some s /\
     MT4Symbol.hasCurrentInfo s = true /\
     MT4Symbol.info s = Some Stub.no_info).
Proof.
  split; [|split].
  - apply (getSymbol_null_iff_primary_fails (H := Stub.api) "EURUSD"
             (Stub.authenticated (Stub.quoting 2 0)) (Stub.quoting 2 0));
      reflexivity.
  - destruct (getSymbol_null_iff_primary_fails (H := Stub.api) "EURUSD"
                (Stub.authenticated (Stub.quoting 0 3)) (Stub.quoting 0 3)
                eq_refl eq_refl) as (_ & _ & Hok).
    destruct (Hok eq_refl) as (s & Hs & Hcs & Hflag & _).
    exists s. split; [exact Hs|]. split; [|exact Hflag].
    unfold MT4Symbol.getName. rewrite Hcs. reflexivity.
  - destruct (getSymbol_null_iff_primary_fails (H := Stub.api) "EURUSD"
                (Stub.authenticated (Stub.quoting 0 0)) (Stub.quoting 0 0)
                eq_refl eq_refl) as (_ & _ & Hok).
    destruct (Hok eq_refl) as (s & Hs & _ & Hflag & Hslice).
    exists s. split; [exact Hs|]. split.
    + apply Hflag. reflexivity.
    + apply Hslice. reflexivity.
Defined.

Example getSymbol_with_quotes :
  option_map MT4Symbol.hasCurrentInfo
    (fst (getSymbol (API := Stub.api) "EURUSD"
            (Stub.authenticated (Stub.quoting 0 0)))) = Some true.
Proof. reflexivity. Qed.

Example getSymbol_without_quotes :
  option_map MT4Symbol.hasCurrentInfo
    (fst (getSymbol (API := Stub.api) "EURUSD"
            (Stub.authenticated (Stub.quoting 0 3)))) = Some false.
Proof. reflexivity. Qed.

Example getSymbol_unknown :
  getSymbol (API := Stub.api) "EURUSD" (Stub.authenticated (Stub.quoting 2 0))
  = (None, set_last_error "Common error" (Stub.authenticated (Stub.quoting 2 0))).
Proof. reflexivity. Qed.

(** ** Closing a trade *)

Lemma dle_zero_not_dgt (price : double) :
  dle price dzero = true -> dgt price dzero = false.
Proof.
  unfold dle, dgt, dzero, SFleb, SFltb.
  destruct price as [s|s| |s m e]; simpl; try reflexivity; try discriminate.
  - destruct s; [reflexivity|discriminate].
  - destruct s; [reflexivity|discriminate].
Qed.

Lemma dgt_false_keeps_zero `{CManagerInterface} (ticket : Z) (price : double) :
  dgt price dzero = false ->
  TradeTransInfo.price (close_descriptor ticket price) = dzero.
Proof.
  intros Hgt. unfold close_descriptor. rewrite Hgt. reflexivity.
Qed.

(** C10: [closeTrade] copies a price into the close descriptor only when it
    is strictly positive; whenever [price > 0] is false, so for a price at
    or below zero and for NaN, the field stays at the zero of the
    initialiser.  Whatever the price, an authenticated [closeTrade] submits
    the descriptor and answers by the SDK's code alone, the interface left
    in the state the SDK returned. *)
Theorem closeTrade_price `{CManagerInterface}
    (ticket : Z) (price : double) (st : t) (w : iface) :
  m_manager st = Some w ->
  m_logged_in st = true ->
  let trade := close_descriptor ticket price in
  (dle price dzero = true -> TradeTransInfo.price trade = dzero) /\
  (dgt price dzero = false -> TradeTransInfo.price trade = dzero) /\
  (dgt price dzero = true -> TradeTransInfo.price trade = price) /\
  TradeTransInfo.type trade = TT_BR_ORDER_CLOSE /\
  TradeTransInfo.order trade = ticket /\
  fst (closeTrade ticket price st) = (fst (TradeTransaction trade w) =? RET_OK) /\
  m_manager (snd (closeTrade ticket price st)) = Some (snd (TradeTransaction trade w)).
Proof.
  intros Hmgr Hlog. cbv zeta.
  split; [|split; [|split; [|split; [|split]]]].
  - intros Hle. apply dgt_false_keeps_zero, dle_zero_not_dgt, Hle.
  - apply dgt_false_keeps_zero.
  - intros Hgt. unfold close_descriptor. rewrite Hgt. reflexivity.
  - unfold close_descriptor. destruct (dgt price dzero); reflexivity.
  - unfold close_descriptor. destruct (dgt price dzero); reflexivity.
  - unfold closeTrade. rewrite Hmgr, Hlog.
    destruct (TradeTransaction (close_descriptor ticket price) w) as [res w1].
    simpl. destruct (res =? RET_OK); simpl; split; reflexivity.
Qed.

Lemma closeTrade_price_witness :
  TradeTransInfo.price (close_descriptor (API := Stub.api) 7 Stub.dm2_5) = dzero /\
  TradeTransInfo.price (close_descriptor (API := Stub.api) 7 S754_nan) = dzero /\
  TradeTransInfo.price (close_descriptor (API := Stub.api) 7 Stub.d1_095) = Stub.d1_095 /\
  fst (closeTrade (API := Stub.api) 7 Stub.dm2_5 (Stub.authenticated (Stub.holding []))) = true.
Proof.
  pose proof (closeTrade_price (H := Stub.api) 7 Stub.dm2_5
                (Stub.authenticated (Stub.holding [])) (Stub.holding [])
                eq_refl eq_refl) as (Hle & _ & _ & _ & _ & Hres & _).
  pose proof (closeTrade_price (H := Stub.api) 7 S754_nan
                (Stub.authenticated (Stub.holding [])) (Stub.holding [])
                eq_refl eq_refl) as (_ & Hnan & _).
  pose proof (closeTrade_price (H := Stub.api) 7 Stub.d1_095
                (Stub.authenticated (Stub.holding [])) (Stub.holding [])
                eq_refl eq_refl) as (_ & _ & Hgt & _).
  split; [apply Hle; reflexivity|].
  split; [apply Hnan; reflexivity|].
  split; [apply Hgt; reflexivity|].
  exact Hres.
Defined.

Example closeTrade_nan_is_market :
  TradeTransInfo.price (close_descriptor (API := Stub.api) 7 S754_nan) = dzero.
Proof. reflexivity. Qed.

(** ** Opening a trade *)

Lemma openTrade_authenticated `{CManagerInterface}
    (l : Z) (symbol : string) (cmd : Z) (volume price sl tp : double)
    (comment : option string) (st : t) (w : iface) :
  m_manager st = Some w ->
  m_logged_in st = true ->
  let trade := open_descriptor l symbol cmd volume price sl tp comment in
  let res := fst (TradeTransaction trade w) in
  let w1 := snd (TradeTransaction trade w) in
  let fetched := TradesGetByLogin l None w1 in
  let found := find_new_order (fst fetched) (snd fetched) in
  openTrade l symbol cmd volume price sl tp comment st =
    if res =? RET_OK then (fst found, set_manager (snd found) st)
    else (0, setLastError res (set_manager w1 st)).
Proof.
  intros Hmgr Hlog. cbv zeta. unfold openTrade. rewrite Hmgr, Hlog.
  destruct (TradeTransaction _ w) as [res w1]. simpl.
  destruct (res =? RET_OK); simpl; [|reflexivity].
  destruct (TradesGetByLogin l None w1) as [b w2]. simpl.
  destruct (find_new_order b w2) as [ticket w3]. reflexivity.
Qed.

Lemma find_new_order_visited `{CManagerInterface}
    (b : buffer TradeRecord.t) (w : iface) :
  fst (find_new_order b w) = newest_ticket (visited b).
Proof.
  unfold find_new_order, visited. destruct b as [[p|] total]; [|reflexivity].
  destruct (0 <? total); reflexivity.
Qed.

(** The loop started on [(newest_time, order_ticket)]: either no record
    is newer and the pair is unchanged, or the pair is that of the first
    record carrying the greatest open time. *)
Lemma newest_loop (records : list TradeRecord.t) :
  forall newest_time order_ticket,
    ((forall r, In r records -> TradeRecord.open_time r <= newest_time) /\
     fold_left newest_step records (newest_time, order_ticket)
     = (newest_time, order_ticket))
    \/
    (exists i r,
       nth_error records i = Some r /\
       newest_time < TradeRecord.open_time r /\
       (forall r', In r' records ->
                   TradeRecord.open_time r' <= TradeRecord.open_time r) /\
       (forall j r', (j < i)%nat -> nth_error records j = Some r' ->
                     TradeRecord.open_time r' < TradeRecord.open_time r) /\
       fold_left newest_step records (newest_time, order_ticket)
       = (TradeRecord.open_time r, TradeRecord.order r)).
Proof.
  induction records as [|a records IH]; intros nt tk.
  - left. split; [intros r []|reflexivity].
  - simpl fold_left. unfold newest_step at 2.
    destruct (Z.ltb_spec nt (TradeRecord.open_time a)) as [Hlt|Hge].
    + right.
      destruct (IH (TradeRecord.open_time a) (TradeRecord.order a))
        as [[Hall Heq]|(i & r & Hi & Hnew & Hmax & Hfirst & Heq)].
      * exists 0%nat, a. repeat split; auto.
        -- intros r' [<-|Hin]; [lia|auto].
        -- intros j r' Hj. lia.
      * exists (S i), r. repeat split; auto.
        -- lia.
        -- intros r' [<-|Hin]; [lia|auto].
        -- intros [|j] r' Hj Hnth; simpl in Hnth.
           ++ injection Hnth as <-. exact Hnew.
           ++ apply (Hfirst j); [lia|exact Hnth].
    + destruct (IH nt tk)
        as [[Hall Heq]|(i & r & Hi & Hnew & Hmax & Hfirst & Heq)].
      * left. split; [|exact Heq].
        intros r' [<-|Hin]; [lia|auto].
      * right. exists (S i), r. repeat split; auto.
        -- intros r' [<-|Hin]; [lia|auto].
        -- intros [|j] r' Hj Hnth; simpl in Hnth.
           ++ injection Hnth as <-. lia.
           ++ apply (Hfirst j); [lia|exact Hnth].
Qed.

(** C1 as the specification states it fails: of two records sharing the
    newest open time, [openTrade] returns the ticket of the first, where the
    specification's pass selects the last. *)
Lemma openTrade_tie_returns_first :
  fst (openTrade (API := Stub.api) 12345 "EURUSD" 0
         Stub.d0_10 Stub.d1_095 dzero dzero None
         (Stub.authenticated
            (Stub.holding [Stub.a_trade 1 100; Stub.a_trade 2 100]))) = 1 /\
  spec_newest_ticket [Stub.a_trade 1 100; Stub.a_trade 2 100] = 2.
Proof. split; reflexivity. Qed.

(** C1, amended: after an accepted submission [openTrade] fetches the trades
    of the login and returns the ticket of the first record, in iteration
    order, that carries the maximum open time, when that maximum is
    positive; it returns zero when the fetch yields no record, and when no
    record has a positive open time. *)
Theorem openTrade_returns_first_newest `{CManagerInterface}
    (l : Z) (symbol : string) (cmd : Z) (volume price sl tp : double)
    (comment : option string) (st : t) (w : iface) :
  m_manager st = Some w ->
  m_logged_in st = true ->
  let trade := open_descriptor l symbol cmd volume price sl tp comment in
  fst (TradeTransaction trade w) = RET_OK ->
  let records :=
    visited (fst (TradesGetByLogin l None (snd (TradeTransaction trade w)))) in
  let ticket := fst (openTrade l symbol cmd volume price sl tp comment st) in
  (records = [] -> ticket = 0) /\
  ((forall r, In r records -> TradeRecord.open_time r <= 0) -> ticket = 0) /\
  ((exists r, In r records /\ 0 < TradeRecord.open_time r) ->
   exists i r,
     nth_error records i = Some r /\
     ticket = TradeRecord.order r /\
     (forall r', In r' records ->
                 TradeRecord.open_time r' <= TradeRecord.open_time r) /\
     (forall j r', (j < i)%nat -> nth_error records j = Some r' ->
                   TradeRecord.open_time r' < TradeRecord.open_time r)).
Proof.
  intros Hmgr Hlog trade Hok records ticket.
  assert (Hticket : ticket = newest_ticket records).
  { unfold ticket, records.
    rewrite (openTrade_authenticated l symbol cmd volume price sl tp comment st w Hmgr Hlog).
    cbv zeta. fold trade. rewrite Hok, Z.eqb_refl. simpl.
    apply find_new_order_visited. }
  rewrite Hticket. unfold newest_ticket.
  destruct (newest_loop records 0 0)
    as [[Hall Heq]|(i & r & Hi & Hnew & Hmax & Hfirst & Heq)].
  - rewrite Heq. simpl. split; [reflexivity|]. split; [reflexivity|].
    intros (r & Hin & Hpos). specialize (Hall r Hin). lia.
  - rewrite Heq. simpl. split; [|split].
    + intros Hnil. rewrite Hnil in Hi. destruct i; discriminate Hi.
    + intros Hall. apply nth_error_In in Hi. specialize (Hall r Hi). lia.
    + intros _. exists i, r. auto.
Qed.

Lemma openTrade_returns_first_newest_witness :
  exists i r,
    nth_error [Stub.a_trade 1 100; Stub.a_trade 2 200; Stub.a_trade 3 200] i = Some r /\
    fst (openTrade (API := Stub.api) 12345 "EURUSD" 0
           Stub.d0_10 Stub.d1_095 dzero dzero None
           (Stub.authenticated
              (Stub.holding [Stub.a_trade 1 100; Stub.a_trade 2 200; Stub.a_trade 3 200])))
    = TradeRecord.order r /\
    (forall r', In r' [Stub.a_trade 1 100; Stub.a_trade 2 200; Stub.a_trade 3 200] ->
                TradeRecord.open_time r' <= TradeRecord.open_time r) /\
    (forall j r', (j < i)%nat ->
                  nth_error [Stub.a_trade 1 100; Stub.a_trade 2 200; Stub.a_trade 3 200] j = Some r' ->
                  TradeRecord.open_time r' < TradeRecord.open_time r).
Proof.
  apply (openTrade_returns_first_newest (H := Stub.api) 12345 "EURUSD" 0
           Stub.d0_10 Stub.d1_095 dzero dzero None
           (Stub.authenticated
              (Stub.holding [Stub.a_trade 1 100; Stub.a_trade 2 200; Stub.a_trade 3 200]))
           (Stub.holding [Stub.a_trade 1 100; Stub.a_trade 2 200; Stub.a_trade 3 200])
           eq_refl eq_refl eq_refl).
  exists (Stub.a_trade 2 200). split; [simpl; auto|reflexivity].
Defined.

Example openTrade_first_of_newest :
  fst (openTrade (API := Stub.api) 12345 "EURUSD" 0
         Stub.d0_10 Stub.d1_095 dzero dzero None
         (Stub.authenticated
            (Stub.holding [Stub.a_trade 1 100; Stub.a_trade 2 200; Stub.a_trade 3 200]))) = 2.
Proof. reflexivity. Qed.

Example openTrade_empty_fetch :
  fst (openTrade (API := Stub.api) 12345 "EURUSD" 0
         Stub.d0_10 Stub.d1_095 dzero dzero None
         (Stub.authenticated (Stub.holding []))) = 0.
Proof. reflexivity. Qed.

Example openTrade_no_positive_open_time :
  fst (openTrade (API := Stub.api) 12345 "EURUSD" 0
         Stub.d0_10 Stub.d1_095 dzero dzero None
         (Stub.authenticated (Stub.holding [Stub.a_trade 7 0]))) = 0.
Proof. reflexivity. Qed.

(** C2 as the specification states it fails: an open of the balance kind, and
    one of the credit kind, is submitted to the SDK and answered with the
    ticket the identification pass finds. *)
Lemma openTrade_balance_credit_submitted :
  (fst (openTrade (API := Stub.api) 12345 "EURUSD" (@OP_BALANCE Stub.api)
          Stub.d0_10 Stub.d1_095 dzero dzero None
          (Stub.authenticated (Stub.holding [Stub.a_trade 7 100]))) = 7 /\
   map TradeTransInfo.cmd
     (Stub.log
        (snd (openTrade (API := Stub.api) 12345 "EURUSD" (@OP_BALANCE Stub.api)
                Stub.d0_10 Stub.d1_095 dzero dzero None
                (Stub.authenticated (Stub.holding [Stub.a_trade 7 100])))))
   = [@OP_BALANCE Stub.api]) /\
  (fst (openTrade (API := Stub.api) 12345 "EURUSD" (@OP_CREDIT Stub.api)
          Stub.d0_10 Stub.d1_095 dzero dzero None
          (Stub.authenticated (Stub.holding [Stub.a_trade 7 100]))) = 7 /\
   map TradeTransInfo.cmd
     (Stub.log
        (snd (openTrade (API := Stub.api) 12345 "EURUSD" (@OP_CREDIT Stub.api)
                Stub.d0_10 Stub.d1_095 dzero dzero None
                (Stub.authenticated (Stub.holding [Stub.a_trade 7 100])))))
   = [@OP_CREDIT Stub.api]).
Proof. repeat split; reflexivity. Qed.

Lemma int_to_short_fits (z : Z) :
  SHRT_MIN <= z <= SHRT_MAX -> int_to_short z = z.
Proof.
  unfold SHRT_MIN, SHRT_MAX, int_to_short. intros Hfit.
  rewrite Z.mod_small by lia. lia.
Qed.

Lemma open_descriptor_fields `{CManagerInterface}
    (l : Z) (symbol : string) (cmd : Z) (volume price sl tp : double)
    (comment : option string) :
  let trade := open_descriptor l symbol cmd volume price sl tp comment in
  TradeTransInfo.type trade = TT_BR_ORDER_OPEN /\
  TradeTransInfo.cmd trade = int_to_short cmd /\
  TradeTransInfo.orderby trade = l /\
  TradeTransInfo.volume trade = double_to_int (dmul volume d100) /\
  TradeTransInfo.price trade = price /\
  TradeTransInfo.sl trade = sl /\
  TradeTransInfo.tp trade = tp.
Proof.
  unfold open_descriptor. destruct comment as [[|c comment]|];
    repeat split; reflexivity.
Qed.

(** C2, amended: [openTrade] does not examine the order kind.  In an
    authenticated session, for every [cmd], the balance and credit kinds
    included, the descriptor is a broker-side open whose [cmd] field is the
    argument narrowed to the field's [short], hence the argument itself
    whenever it fits one, and goes to [TradeTransaction]; the call returns
    zero with the SDK's description as last error when the SDK answers
    non-OK, and the result of the identification pass otherwise. *)
Theorem openTrade_any_order_kind `{CManagerInterface}
    (l : Z) (symbol : string) (cmd : Z) (volume price sl tp : double)
    (comment : option string) (st : t) (w : iface) :
  m_manager st = Some w ->
  m_logged_in st = true ->
  let trade := open_descriptor l symbol cmd volume price sl tp comment in
  let res := fst (TradeTransaction trade w) in
  let w1 := snd (TradeTransaction trade w) in
  let fetched := TradesGetByLogin l None w1 in
  let found := find_new_order (fst fetched) (snd fetched) in
  let out := openTrade l symbol cmd volume price sl tp comment st in
  TradeTransInfo.type trade = TT_BR_ORDER_OPEN /\
  TradeTransInfo.cmd trade = int_to_short cmd /\
  (SHRT_MIN <= cmd <= SHRT_MAX -> TradeTransInfo.cmd trade = cmd) /\
  (res <> RET_OK -> out = (0, setLastError res (set_manager w1 st))) /\
  (res = RET_OK -> out = (fst found, set_manager (snd found) st)).
Proof.
  intros Hmgr Hlog trade res w1 fetched found out.
  destruct (open_descriptor_fields l symbol cmd volume price sl tp comment)
    as (Htype & Hcmd & _).
  fold trade in Htype, Hcmd.
  split; [exact Htype|]. split; [exact Hcmd|].
  split; [intros Hfit; rewrite Hcmd; apply int_to_short_fits; exact Hfit|].
  unfold out.
  rewrite (openTrade_authenticated l symbol cmd volume price sl tp comment st w Hmgr Hlog).
  cbv zeta. fold trade. fold res. fold w1. fold fetched. fold found.
  split; intros Hres.
  - apply Z.eqb_neq in Hres. rewrite Hres. reflexivity.
  - apply Z.eqb_eq in Hres. rewrite Hres. reflexivity.
Qed.

Lemma openTrade_any_order_kind_witness :
  TradeTransInfo.cmd
    (open_descriptor (API := Stub.api) 12345 "EURUSD" (@OP_CREDIT Stub.api)
       Stub.d0_10 Stub.d1_095 dzero dzero None) = @OP_CREDIT Stub.api /\
  fst (openTrade (API := Stub.api) 12345 "EURUSD" (@OP_CREDIT Stub.api)
         Stub.d0_10 Stub.d1_095 dzero dzero None
         (Stub.authenticated (Stub.holding [Stub.a_trade 7 100]))) = 7.
Proof.
  pose proof (openTrade_any_order_kind (H := Stub.api) 12345 "EURUSD"
                (@OP_CREDIT Stub.api) Stub.d0_10 Stub.d1_095 dzero dzero None
                (Stub.authenticated (Stub.holding [Stub.a_trade 7 100]))
                (Stub.holding [Stub.a_trade 7 100]) eq_refl eq_refl)
    as (_ & _ & Hfits & _ & Hok).
  split.
  - apply Hfits. unfold SHRT_MIN, SHRT_MAX. simpl. lia.
  - exact (f_equal fst (Hok eq_refl)).
Defined.

Example open_descriptor_cmd_narrowed :
  TradeTransInfo.cmd
    (open_descriptor (API := Stub.api) 12345 "EURUSD" 70000
       Stub.d0_10 Stub.d1_095 dzero dzero None) = 4464.
Proof. reflexivity. Qed.

(** ** Volume conversion *)

(** [dtrunc] rounds toward zero: the result has the sign of the double and
    its magnitude is the integral part of [m * 2^e]. *)
Lemma dtrunc_toward_zero (s : bool) (m : positive) (e n : Z) :
  dtrunc (S754_finite s m e) = Some n ->
  (if s then n <= 0 else 0 <= n) /\
  (0 <= e -> Z.abs n = Zpos m * 2 ^ e) /\
  (e < 0 -> Z.abs n * 2 ^ (- e) <= Zpos m < (Z.abs n + 1) * 2 ^ (- e)).
Proof.
  intros Hn.
  assert (Hq : n = let q := if 0 <=? e then Zpos m * 2 ^ e
                            else Zpos m / 2 ^ (- e) in
                   if s then - q else q)
    by (apply (f_equal (fun o => match o with Some z => z | None => n end)) in Hn;
        symmetry; exact Hn).
  clear Hn. subst n. cbv zeta.
  destruct (Z.leb_spec 0 e) as [He|He].
  - assert (Hq : 0 <= Zpos m * 2 ^ e)
      by (apply Z.mul_nonneg_nonneg; [lia|apply Z.pow_nonneg; lia]).
    destruct s; (split; [lia|]); split; intros; lia.
  - assert (Hp : 0 < 2 ^ (- e)) by (apply Z.pow_pos_nonneg; lia).
    assert (Hq : 0 <= Zpos m / 2 ^ (- e)) by (apply Z.div_pos; lia).
    pose proof (Z.mul_div_le (Zpos m) (2 ^ (- e)) Hp) as Hlo.
    pose proof (Z.mul_succ_div_gt (Zpos m) (2 ^ (- e)) Hp) as Hhi.
    destruct s; (split; [lia|]); (split; [intros; lia|]); intros _.
    + rewrite Z.abs_opp, Z.abs_eq by lia. lia.
    + rewrite Z.abs_eq by lia. lia.
Qed.

(** C5 as the specification states it fails: a volume of 1e10 lots, whose
    hundredfold is far beyond [INT_MAX], is not refused; the transaction is
    submitted and a ticket comes back. *)
Lemma openTrade_overflowing_volume_submitted :
  dtrunc (dmul Stub.d1e10 d100) = Some 1000000000000 /\
  INT_MAX < 1000000000000 /\
  fst (openTrade (API := Stub.api) 12345 "EURUSD" 0
         Stub.d1e10 Stub.d1_095 dzero dzero None
         (Stub.authenticated (Stub.holding [Stub.a_trade 7 100]))) = 7 /\
  List.length
    (Stub.log
       (snd (openTrade (API := Stub.api) 12345 "EURUSD" 0
               Stub.d1e10 Stub.d1_095 dzero dzero None
               (Stub.authenticated (Stub.holding [Stub.a_trade 7 100]))))) = 1%nat.
Proof. repeat split; vm_compute; reflexivity. Qed.

(** C5, amended: the descriptor's volume is the product [volume * 100],
    computed in double arithmetic and cut toward zero, whenever that
    integral part fits an [int].  No volume is refused: in an authenticated
    session the descriptor goes to [TradeTransaction] and the outcome is the
    SDK's alone, zero with its description as last error on a non-OK code and
    the ticket of the identification pass otherwise. *)
Theorem openTrade_volume_conversion `{CManagerInterface}
    (l : Z) (symbol : string) (cmd : Z) (volume price sl tp : double)
    (comment : option string) (st : t) (w : iface) :
  m_manager st = Some w ->
  m_logged_in st = true ->
  let trade := open_descriptor l symbol cmd volume price sl tp comment in
  let res := fst (TradeTransaction trade w) in
  let w1 := snd (TradeTransaction trade w) in
  let out := openTrade l symbol cmd volume price sl tp comment st in
  (forall n, dtrunc (dmul volume d100) = Some n ->
             INT_MIN <= n <= INT_MAX ->
             TradeTransInfo.volume trade = n) /\
  (res <> RET_OK ->
   fst out = 0 /\ getLastError (snd out) = ErrorDescription res w1) /\
  (res = RET_OK ->
   fst out = newest_ticket (visited (fst (TradesGetByLogin l None w1)))).
Proof.
  intros Hmgr Hlog trade res w1 out. split; [|split].
  - intros n Hn [Hlo Hhi].
    destruct (open_descriptor_fields l symbol cmd volume price sl tp comment)
      as (_ & _ & _ & Hvol & _).
    fold trade in Hvol. rewrite Hvol. unfold double_to_int. rewrite Hn.
    apply Z.leb_le in Hlo, Hhi. rewrite Hlo, Hhi. reflexivity.
  - intros Hres. unfold out.
    rewrite (openTrade_authenticated l symbol cmd volume price sl tp comment st w Hmgr Hlog).
    cbv zeta. fold trade. fold res. fold w1.
    apply Z.eqb_neq in Hres. rewrite Hres. simpl. split; reflexivity.
  - intros Hres. unfold out.
    rewrite (openTrade_authenticated l symbol cmd volume price sl tp comment st w Hmgr Hlog).
    cbv zeta. fold trade. fold res. fold w1.
    apply Z.eqb_eq in Hres. rewrite Hres. simpl.
    apply find_new_order_visited.
Qed.

Lemma openTrade_volume_conversion_witness :
  TradeTransInfo.volume
    (open_descriptor (API := Stub.api) 12345 "EURUSD" 0
       Stub.d0_10 Stub.d1_095 dzero dzero None) = 10.
Proof.
  apply (openTrade_volume_conversion (H := Stub.api) 12345 "EURUSD" 0
           Stub.d0_10 Stub.d1_095 dzero dzero None
           (Stub.authenticated (Stub.holding []))
           (Stub.holding []) eq_refl eq_refl).
  - vm_compute. reflexivity.
  - unfold INT_MIN, INT_MAX. lia.
Defined.

Example volume_of_double_product :
  TradeTransInfo.volume
    (open_descriptor (API := Stub.api) 12345 "EURUSD" 0
       Stub.d0_29 Stub.d1_095 dzero dzero None) = 28.
Proof. vm_compute. reflexivity. Qed.

Example volume_cut_toward_zero :
  dtrunc (dmul Stub.dm0_015 d100) = Some (-1) /\
  TradeTransInfo.volume
    (open_descriptor (API := Stub.api) 12345 "EURUSD" 0
       Stub.dm0_015 Stub.d1_095 dzero dzero None) = -1.
Proof. split; vm_compute; reflexivity. Qed.

(** ** The last-error slot *)


Example getAccounts_before_login :
  fst (getAccounts (API := Stub.api) construct) = [] /\
  getLastError (snd (getAccounts (API := Stub.api) construct)) = EmptyString.
Proof. split; reflexivity. Qed.




Example closeTrade_not_logged_in :
  closeTrade (API := Stub.api) 7 dzero construct
  = (false, set_last_error "Not connected or not logged in" construct).
Proof. reflexivity. Qed.

Example getAccount_unknown_login :
  getLastError
    (snd (getAccount (API := Stub.api) 12345
            (Stub.authenticated (Stub.holding [])))) = "Common error"%string.
Proof. reflexivity. Qed.

(** * Further properties of the adapter *)

(** ** The session over its lifetime *)

Lemma connect_keeps_valid `{CManagerInterface} (server : string) (st : t) :
  isValid (snd (connect server st)) = isValid st /\
  (m_connected (snd (connect server st)) = true ->
   m_connected st = true \/ isValid st = true).
Proof.
  unfold connect, isValid. destruct (m_manager st) as [w|] eqn:Hmgr.
  - destruct (Connect server w) as [res w1].
    destruct (negb (res =? RET_OK)); simpl; auto.
  - simpl. rewrite Hmgr. auto.
Qed.

Lemma login_keeps_valid `{CManagerInterface} (l : Z) (password : string) (st : t) :
  isValid (snd (login l password st)) = isValid st.
Proof.
  unfold login, isValid. destruct (m_manager st) as [w|] eqn:Hmgr.
  - destruct (m_connected st); [|simpl; rewrite Hmgr; reflexivity].
    destruct (Login l password w) as [res w1].
    destruct (negb (res =? RET_OK)); reflexivity.
  - simpl. rewrite Hmgr. reflexivity.
Qed.

Lemma disconnect_keeps_valid `{CManagerInterface} (st : t) :
  isValid (disconnect st) = isValid st.
Proof.
  unfold disconnect, isValid. destruct (m_manager st) as [w|] eqn:Hmgr.
  - destruct (m_connected st); simpl; rewrite ?Hmgr; reflexivity.
  - rewrite Hmgr. reflexivity.
Qed.

Lemma run_keeps_valid `{CManagerInterface} (op : operation) (st : t) :
  isValid (snd (run op st)) = isValid st.
Proof.
  destruct op; unfold isValid, run, with_result,
    getServerTime, getAccounts, getAccount, getSymbols, getSymbol, getTrades,
    getTradesByLogin, getTradesBySymbol, getTradeByTicket, openTrade,
    closeTrade, modifyTrade, getMarginLevel, getOnlineUsersCount, isUserOnline,
    marshal, find_new_order;
  destruct (m_manager st) as [w|] eqn:Hmgr;
  destruct (m_logged_in st) eqn:Hlog; simpl; rewrite ?Hmgr; auto;
  repeat (match goal with
          | |- context [match ?c with _ => _ end] =>
              lazymatch c with
              | m_manager _ => fail
              | _ => destruct c
              end
          end; simpl; rewrite ?Hmgr; auto).
Qed.

(** What holds of every reachable state: validity is that of the
    constructed adapter, a connection needs the interface, a login needs a
    connection. *)
Lemma reachable_session `{CManagerInterface} (st : t) :
  reachable st ->
  isValid st = isValid construct /\
  (m_connected st = true -> isValid st = true) /\
  (m_logged_in st = true -> m_connected st = true).
Proof.
  induction 1 as [|st server Hr IH|st l password Hr IH|st Hr IH|st op Hr IH].
  - split; [reflexivity|]. split; discriminate.
  - destruct IH as (Hv & Hc & Hl).
    destruct (connect_keeps_valid server st) as [Hkv Hkc].
    destruct (connect_keeps_logged_in server st) as [Hkl Hkk].
    rewrite Hkv, Hkl. split; [exact Hv|]. split.
    + intros Hconn. destruct (Hkc Hconn); auto.
    + intros Hlog. auto.
  - destruct IH as (Hv & Hc & Hl).
    rewrite login_keeps_valid, login_keeps_connected.
    split; [exact Hv|]. split; [exact Hc|].
    intros Hlog. destruct (login_needs_connected l password st Hlog); auto.
  - destruct IH as (Hv & Hc & Hl). rewrite disconnect_keeps_valid.
    split; [exact Hv|].
    destruct (disconnect_flags st) as [He|[Hfc Hfl]].
    + rewrite He. auto.
    + rewrite Hfc, Hfl. split; discriminate.
  - destruct IH as (Hv & Hc & Hl). rewrite run_keeps_valid.
    destruct (run_keeps_flags op st) as [Hkc Hkl]. rewrite Hkc, Hkl. auto.
Qed.

(** X1: validity is settled by the constructor.  In every reachable state
    [isValid] answers as it did on the constructed adapter, and a set
    connected flag comes with a valid interface. *)
Theorem validity_fixed_at_construction `{CManagerInterface} (st : t) :
  reachable st ->
  isValid st = isValid construct /\
  (m_connected st = true -> isValid st = true).
Proof.
  intros Hr. destruct (reachable_session st Hr) as (Hv & Hc & _). auto.
Qed.

Lemma validity_fixed_at_construction_witness :
  isValid
    (snd (run (API := Stub.api) (CloseTrade 7 dzero)
            (snd (login (API := Stub.api) 12345 "pw"
                    (snd (connect (API := Stub.api) "demo.broker:443" construct))))))
  = isValid (API := Stub.api) construct.
Proof.
  refine (proj1 (validity_fixed_at_construction (H := Stub.api) _ _)).
  apply (reach_run (API := Stub.api)), reach_login, reach_connect, reach_construct.
Defined.

Lemma run_fails_unready `{CManagerInterface} (op : operation) (st : t) :
  m_manager st = None \/ m_logged_in st = false ->
  fst (run op st) = failure op.
Proof.
  intros Hg.
  destruct op; unfold run, with_result, failure,
    getServerTime, getAccounts, getAccount, getSymbols, getSymbol, getTrades,
    getTradesByLogin, getTradesBySymbol, getTradeByTicket, openTrade,
    closeTrade, modifyTrade, getMarginLevel, getOnlineUsersCount, isUserOnline;
  by_guard st; destruct Hg as [Hg|Hg]; try discriminate Hg; reflexivity.
Qed.

(** X2: an adapter whose factory gave no interface stays unusable.  In every
    state reached from it both flags are down, [connect] and [login] fail
    with their fixed messages without touching anything else, and every
    query and trade hands back its failure value. *)
Theorem failed_construction_is_final `{CManagerInterface} (st : t) :
  isValid construct = false ->
  reachable st ->
  m_connected st = false /\
  m_logged_in st = false /\
  isConnected st = false /\
  (forall server,
     connect server st
     = (false, set_last_error "Manager interface not initialized" st)) /\
  (forall l password,
     login l password st
     = (false, set_last_error "Not connected to server" st)) /\
  (forall op, fst (run op st) = failure op).
Proof.
  intros Hbad Hr. destruct (reachable_session st Hr) as (Hv & Hc & Hl).
  rewrite Hbad in Hv.
  assert (Hconn : m_connected st = false).
  { destruct (m_connected st); [|reflexivity]. rewrite Hc in Hv; [discriminate|reflexivity]. }
  assert (Hlog : m_logged_in st = false).
  { destruct (m_logged_in st); [|reflexivity]. rewrite Hl in Hconn; [discriminate|reflexivity]. }
  assert (Hmgr : m_manager st = None).
  { unfold isValid in Hv. destruct (m_manager st); [discriminate|reflexivity]. }
  split; [exact Hconn|]. split; [exact Hlog|]. split; [|split; [|split]].
  - unfold isConnected. rewrite Hconn. reflexivity.
  - intros server. unfold connect. rewrite Hmgr. reflexivity.
  - intros l password. unfold login. rewrite Hmgr. reflexivity.
  - intros op. apply run_fails_unready. left. exact Hmgr.
Qed.

Lemma failed_construction_is_final_witness :
  fst (run (API := Faulty.api) GetAccounts
         (snd (connect (API := Faulty.api) "demo.broker:443" construct)))
  = RAccounts [].
Proof.
  pose proof (failed_construction_is_final (H := Faulty.api)
                (snd (connect (API := Faulty.api) "demo.broker:443" construct))
                eq_refl (reach_connect _ _ reach_construct))
    as (_ & _ & _ & _ & _ & Hop).
  exact (Hop GetAccounts).
Defined.

(** X3: [disconnect] ends the session and nothing more.  From any reachable
    state it leaves both flags down, so that [isConnected] is false and
    every query and trade fails; the server label, the login and the last
    error stay as they were; a second [disconnect] changes nothing. *)
Theorem disconnect_ends_session `{CManagerInterface} (st : t) :
  reachable st ->
  m_connected (disconnect st) = false /\
  m_logged_in (disconnect st) = false /\
  isConnected (disconnect st) = false /\
  m_server (disconnect st) = m_server st /\
  m_login (disconnect st) = m_login st /\
  getLastError (disconnect st) = getLastError st /\
  (forall op, fst (run op (disconnect st)) = failure op) /\
  disconnect (disconnect st) = disconnect st.
Proof.
  intros Hr. destruct (reachable_session st Hr) as (_ & Hc & Hl).
  assert (Hdown : m_connected (disconnect st) = false /\
                  m_logged_in (disconnect st) = false).
  { unfold disconnect, isValid in *.
    destruct (m_manager st) as [w|] eqn:Hmgr.
    - destruct (m_connected st) eqn:Hconn; [simpl; auto|].
      simpl. split; [first [exact Hconn|reflexivity]|].
      destruct (m_logged_in st); [|reflexivity]. symmetry. auto.
    - destruct (m_connected st) eqn:Hconn.
      + discriminate (Hc eq_refl).
      + simpl. split; [first [exact Hconn|reflexivity]|].
        destruct (m_logged_in st); [|reflexivity]. symmetry. auto. }
  destruct Hdown as [Hdc Hdl].
  split; [exact Hdc|]. split; [exact Hdl|].
  split; [unfold isConnected; rewrite Hdc; reflexivity|].
  assert (Hkeep : m_server (disconnect st) = m_server st /\
                  m_login (disconnect st) = m_login st /\
                  getLastError (disconnect st) = getLastError st).
  { unfold disconnect. destruct (m_manager st); [|auto].
    destruct (m_connected st); simpl; auto. }
  destruct Hkeep as (Hs & Hlg & He).
  split; [exact Hs|]. split; [exact Hlg|]. split; [exact He|]. split.
  - intros op. apply run_fails_unready. right. exact Hdl.
  - unfold disconnect at 1. rewrite Hdc.
    destruct (m_manager (disconnect st)); reflexivity.
Qed.

Lemma disconnect_ends_session_witness :
  fst (run (API := Stub.api) GetTrades
         (disconnect
            (snd (login (API := Stub.api) 12345 "pw"
                    (snd (connect (API := Stub.api) "demo.broker:443" construct))))))
  = RTrades [].
Proof.
  pose proof (disconnect_ends_session (H := Stub.api)
                (snd (login (API := Stub.api) 12345 "pw"
                        (snd (connect (API := Stub.api) "demo.broker:443" construct))))
                (reach_login _ _ _ (reach_connect _ _ reach_construct)))
    as (_ & _ & _ & _ & _ & _ & Hop & _).
  exact (Hop GetTrades).
Defined.

(** X4: no query and no trade changes the session.  Whatever the state and
    whatever the SDK answers, the connected flag, the logged-in flag, the
    server label, the login and the validity of the interface are after the
    call what they were before it. *)
Theorem operations_keep_session `{CManagerInterface} (op : operation) (st : t) :
  m_connected (snd (run op st)) = m_connected st /\
  m_logged_in (snd (run op st)) = m_logged_in st /\
  m_server (snd (run op st)) = m_server st /\
  m_login (snd (run op st)) = m_login st /\
  isValid (snd (run op st)) = isValid st.
Proof.
  destruct (run_keeps_flags op st) as [Hc Hl].
  split; [exact Hc|]. split; [exact Hl|].
  split; [|split; [|apply run_keeps_valid]].
  - destruct op; unfold run, with_result,
      getServerTime, getAccounts, getAccount, getSymbols, getSymbol, getTrades,
      getTradesByLogin, getTradesBySymbol, getTradeByTicket, openTrade,
      closeTrade, modifyTrade, getMarginLevel, getOnlineUsersCount, isUserOnline,
      marshal, find_new_order;
    destruct (m_manager st) as [w|]; destruct (m_logged_in st); simpl; auto;
    repeat (match goal with
            | |- context [match ?c with _ => _ end] => destruct c
            end; simpl; auto).
  - destruct op; unfold run, with_result,
      getServerTime, getAccounts, getAccount, getSymbols, getSymbol, getTrades,
      getTradesByLogin, getTradesBySymbol, getTradeByTicket, openTrade,
      closeTrade, modifyTrade, getMarginLevel, getOnlineUsersCount, isUserOnline,
      marshal, find_new_order;
    destruct (m_manager st) as [w|]; destruct (m_logged_in st); simpl; auto;
    repeat (match goal with
            | |- context [match ?c with _ => _ end] => destruct c
            end; simpl; auto).
Qed.

(** X5: what [connect] changes.  It never touches the logged-in flag or the
    login.  When it returns true the interface was valid, the connected flag
    is up, the server label is the argument and the last error is as before;
    when it returns false the connected flag and the server label are as
    before, so a failed reconnect leaves an earlier connection standing. *)
Theorem connect_outcome `{CManagerInterface} (server : string) (st : t) :
  m_logged_in (snd (connect server st)) = m_logged_in st /\
  m_login (snd (connect server st)) = m_login st /\
  (fst (connect server st) = true ->
   isValid st = true /\
   m_connected (snd (connect server st)) = true /\
   m_server (snd (connect server st)) = server /\
   getLastError (snd (connect server st)) = getLastError st) /\
  (fst (connect server st) = false ->
   m_connected (snd (connect server st)) = m_connected st /\
   m_server (snd (connect server st)) = m_server st).
Proof.
  unfold connect, isValid. destruct (m_manager st) as [w|].
  - destruct (Connect server w) as [res w1].
    destruct (negb (res =? RET_OK)); simpl;
      repeat split; auto; discriminate.
  - simpl. repeat split; auto; discriminate.
Qed.

(** X6: what [login] changes.  It never touches the connected flag or the
    server label.  It returns true only on a valid, connected adapter, and
    then the logged-in flag is up, the login is the argument and the last
    error is as before; when it returns false the logged-in flag and the
    login are as before.  On an adapter that is not connected it fails with
    its fixed message and the SDK is not asked. *)
Theorem login_outcome `{CManagerInterface} (l : Z) (password : string) (st : t) :
  m_connected (snd (login l password st)) = m_connected st /\
  m_server (snd (login l password st)) = m_server st /\
  (fst (login l password st) = true ->
   isValid st = true /\
   m_connected st = true /\
   m_logged_in (snd (login l password st)) = true /\
   m_login (snd (login l password st)) = l /\
   getLastError (snd (login l password st)) = getLastError st) /\
  (fst (login l password st) = false ->
   m_logged_in (snd (login l password st)) = m_logged_in st /\
   m_login (snd (login l password st)) = m_login st) /\
  (m_connected st = false ->
   login l password st = (false, set_last_error "Not connected to server" st)).
Proof.
  unfold login, isValid. destruct (m_manager st) as [w|].
  - destruct (m_connected st) eqn:Hconn.
    + destruct (Login l password w) as [res w1].
      destruct (negb (res =? RET_OK)); simpl;
        repeat split; auto; discriminate.
    + simpl. repeat split; auto; discriminate.
  - simpl. repeat split; auto; discriminate.
Qed.

(** ** List queries *)

Lemma marshal_copies `{CManagerInterface} {R V : Type}
    (view : R -> V) (p : list R) (total : Z) (w : iface) :
  0 < total <= Z.of_nat (List.length p) ->
  snapshot_of view p total (fst (marshal view (Some p, total) w)) /\
  snd (marshal view (Some p, total) w) = MemFree w.
Proof.
  intros [Hpos Hfit]. unfold marshal.
  apply Z.ltb_lt in Hpos as Hb. rewrite Hb. simpl. split; [|reflexivity].
  split.
  - rewrite length_map, length_firstn. lia.
  - intros i r Hi Hnth.
    rewrite nth_error_map, nth_error_firstn.
    assert (Hlt : (i <? Z.to_nat total)%nat = true) by (apply Nat.ltb_lt; lia).
    rewrite Hlt, Hnth. reflexivity.
Qed.

Lemma marshal_nothing `{CManagerInterface} {R V : Type}
    (view : R -> V) (b : buffer R) (w : iface) :
  fst b = None \/ snd b <= 0 ->
  marshal view b w = ([], w).
Proof.
  intros Hb. unfold marshal. destruct b as [[p|] total]; [|reflexivity].
  destruct Hb as [Hb|Hb]; [discriminate Hb|]. simpl in Hb.
  apply Z.ltb_ge in Hb. rewrite Hb. reflexivity.
Qed.

(** X7: the trade list queries hand back a copy of what the SDK returned.
    In an authenticated session, when the SDK gives a buffer and a positive
    count within it, [getTrades], [getTradesByLogin] and [getTradesBySymbol]
    return exactly [total] trades, the i-th wrapping the i-th record of the
    buffer, and the buffer is released once. *)
Theorem trade_queries_copy_records `{CManagerInterface} (st : t) (w : iface) :
  m_manager st = Some w ->
  m_logged_in st = true ->
  (forall p total,
     fst (TradesRequest w) = (Some p, total) ->
     0 < total <= Z.of_nat (List.length p) ->
     snapshot_of MT4Trade.mk p total (fst (getTrades st)) /\
     m_manager (snd (getTrades st)) = Some (MemFree (snd (TradesRequest w)))) /\
  (forall l p total,
     fst (TradesGetByLogin l None w) = (Some p, total) ->
     0 < total <= Z.of_nat (List.length p) ->
     snapshot_of MT4Trade.mk p total (fst (getTradesByLogin l st)) /\
     m_manager (snd (getTradesByLogin l st))
     = Some (MemFree (snd (TradesGetByLogin l None w)))) /\
  (forall symbol p total,
     fst (TradesGetBySymbol symbol w) = (Some p, total) ->
     0 < total <= Z.of_nat (List.length p) ->
     snapshot_of MT4Trade.mk p total (fst (getTradesBySymbol symbol st)) /\
     m_manager (snd (getTradesBySymbol symbol st))
     = Some (MemFree (snd (TradesGetBySymbol symbol w)))).
Proof.
  intros Hmgr Hlog. split; [|split].
  - intros p total Hb Hfit. unfold getTrades. rewrite Hmgr, Hlog.
    destruct (TradesRequest w) as [b w1]. simpl in Hb. subst b.
    destruct (marshal_copies MT4Trade.mk p total w1 Hfit) as [Hs Hf].
    destruct (marshal MT4Trade.mk (Some p, total) w1) as [out w2].
    simpl in *. subst w2. auto.
  - intros l p total Hb Hfit. unfold getTradesByLogin. rewrite Hmgr, Hlog.
    destruct (TradesGetByLogin l None w) as [b w1]. simpl in Hb. subst b.
    destruct (marshal_copies MT4Trade.mk p total w1 Hfit) as [Hs Hf].
    destruct (marshal MT4Trade.mk (Some p, total) w1) as [out w2].
    simpl in *. subst w2. auto.
  - intros symbol p total Hb Hfit. unfold getTradesBySymbol. rewrite Hmgr, Hlog.
    destruct (TradesGetBySymbol symbol w) as [b w1]. simpl in Hb. subst b.
    destruct (marshal_copies MT4Trade.mk p total w1 Hfit) as [Hs Hf].
    destruct (marshal MT4Trade.mk (Some p, total) w1) as [out w2].
    simpl in *. subst w2. auto.
Qed.

Lemma trade_queries_copy_records_witness :
  snapshot_of MT4Trade.mk [Stub.a_trade 1 100; Stub.a_trade 2 200] 2
    (fst (getTradesByLogin (API := Stub.api) 12345
            (Stub.authenticated
               (Stub.holding [Stub.a_trade 1 100; Stub.a_trade 2 200])))).
Proof.
  pose proof (trade_queries_copy_records (H := Stub.api)
                (Stub.authenticated
                   (Stub.holding [Stub.a_trade 1 100; Stub.a_trade 2 200]))
                (Stub.holding [Stub.a_trade 1 100; Stub.a_trade 2 200])
                eq_refl eq_refl) as (_ & Hby & _).
  apply (Hby 12345 [Stub.a_trade 1 100; Stub.a_trade 2 200] 2 eq_refl).
  simpl. lia.
Defined.

(** X8: [getAccounts] and [getSymbols] hand back a copy of what the SDK
    returned, under the same conditions: [total] views, the i-th wrapping
    the i-th record (an instrument without current prices), the buffer
    released once. *)
Theorem directory_queries_copy_records `{CManagerInterface} (st : t) (w : iface) :
  m_manager st = Some w ->
  m_logged_in st = true ->
  (forall p total,
     fst (UsersRequest w) = (Some p, total) ->
     0 < total <= Z.of_nat (List.length p) ->
     snapshot_of MT4Account.mk p total (fst (getAccounts st)) /\
     m_manager (snd (getAccounts st)) = Some (MemFree (snd (UsersRequest w)))) /\
  (forall p total,
     fst (SymbolsGetAll w) = (Some p, total) ->
     0 < total <= Z.of_nat (List.length p) ->
     snapshot_of MT4Symbol.of_symbol p total (fst (getSymbols st)) /\
     m_manager (snd (getSymbols st)) = Some (MemFree (snd (SymbolsGetAll w)))).
Proof.
  intros Hmgr Hlog. split.
  - intros p total Hb Hfit. unfold getAccounts. rewrite Hmgr, Hlog.
    destruct (UsersRequest w) as [b w1]. simpl in Hb. subst b.
    destruct (marshal_copies MT4Account.mk p total w1 Hfit) as [Hs Hf].
    destruct (marshal MT4Account.mk (Some p, total) w1) as [out w2].
    simpl in *. subst w2. auto.
  - intros p total Hb Hfit. unfold getSymbols. rewrite Hmgr, Hlog.
    destruct (SymbolsGetAll w) as [b w1]. simpl in Hb. subst b.
    destruct (marshal_copies MT4Symbol.of_symbol p total w1 Hfit) as [Hs Hf].
    destruct (marshal MT4Symbol.of_symbol (Some p, total) w1) as [out w2].
    simpl in *. subst w2. auto.
Qed.

(** X9: a list query that gets nothing releases nothing.  In an
    authenticated session, when the SDK answers with a null pointer or with
    a count that is not positive, each of the five list queries returns the
    empty sequence and leaves the interface as the SDK call left it: no
    [MemFree] is issued, not even for a non-null buffer of count zero. *)
Theorem list_queries_on_no_records `{CManagerInterface} (st : t) (w : iface) :
  m_manager st = Some w ->
  m_logged_in st = true ->
  (fst (fst (UsersRequest w)) = None \/ snd (fst (UsersRequest w)) <= 0 ->
   getAccounts st = ([], set_manager (snd (UsersRequest w)) st)) /\
  (fst (fst (SymbolsGetAll w)) = None \/ snd (fst (SymbolsGetAll w)) <= 0 ->
   getSymbols st = ([], set_manager (snd (SymbolsGetAll w)) st)) /\
  (fst (fst (TradesRequest w)) = None \/ snd (fst (TradesRequest w)) <= 0 ->
   getTrades st = ([], set_manager (snd (TradesRequest w)) st)) /\
  (forall l,
     fst (fst (TradesGetByLogin l None w)) = None \/
     snd (fst (TradesGetByLogin l None w)) <= 0 ->
     getTradesByLogin l st = ([], set_manager (snd (TradesGetByLogin l None w)) st)) /\
  (forall symbol,
     fst (fst (TradesGetBySymbol symbol w)) = None \/
     snd (fst (TradesGetBySymbol symbol w)) <= 0 ->
     getTradesBySymbol symbol st
     = ([], set_manager (snd (TradesGetBySymbol symbol w)) st)).
Proof.
  intros Hmgr Hlog.
  unfold getAccounts, getSymbols, getTrades, getTradesByLogin, getTradesBySymbol.
  rewrite Hmgr, Hlog. repeat split.
  - destruct (UsersRequest w) as [b w1]. simpl. intros Hb.
    rewrite (marshal_nothing _ b w1 Hb). reflexivity.
  - destruct (SymbolsGetAll w) as [b w1]. simpl. intros Hb.
    rewrite (marshal_nothing _ b w1 Hb). reflexivity.
  - destruct (TradesRequest w) as [b w1]. simpl. intros Hb.
    rewrite (marshal_nothing _ b w1 Hb). reflexivity.
  - intros l. destruct (TradesGetByLogin l None w) as [b w1]. simpl. intros Hb.
    rewrite (marshal_nothing _ b w1 Hb). reflexivity.
  - intros symbol. destruct (TradesGetBySymbol symbol w) as [b w1]. simpl. intros Hb.
    rewrite (marshal_nothing _ b w1 Hb). reflexivity.
Qed.

Lemma directory_queries_copy_records_witness :
  snapshot_of MT4Account.mk [Stub.no_user] 1
    (fst (getAccounts (API := Stub.api)
            (Stub.authenticated
               (Stub.mk 0 0 0 0 0 (Some [Stub.no_user], 1) (None, 0) (None, 0)
                        [] 0%nat true)))).
Proof.
  pose proof (directory_queries_copy_records (H := Stub.api)
                (Stub.authenticated
                   (Stub.mk 0 0 0 0 0 (Some [Stub.no_user], 1) (None, 0) (None, 0)
                            [] 0%nat true))
                (Stub.mk 0 0 0 0 0 (Some [Stub.no_user], 1) (None, 0) (None, 0)
                         [] 0%nat true)
                eq_refl eq_refl) as (Hacc & _).
  apply (Hacc [Stub.no_user] 1 eq_refl).
  simpl. lia.
Defined.

Lemma list_queries_on_no_records_witness :
  getTrades (API := Stub.api) (Stub.authenticated (Stub.holding []))
  = ([], Stub.authenticated (Stub.holding [])).
Proof.
  pose proof (list_queries_on_no_records (H := Stub.api)
                (Stub.authenticated (Stub.holding [])) (Stub.holding [])
                eq_refl eq_refl) as (_ & _ & Htr & _).
  apply Htr. right. simpl. lia.
Defined.

(** X10: [getSymbols] never attaches current prices.  Every instrument it
    returns, in any state, reports no current info, and its bid, ask and
    last-update accessors answer zero. *)
Theorem getSymbols_without_quotes `{CManagerInterface} (st : t) (s : MT4Symbol.t) :
  In s (fst (getSymbols st)) ->
  MT4Symbol.hasCurrentInfo s = false /\
  MT4Symbol.getBid s = dzero /\
  MT4Symbol.getAsk s = dzero /\
  MT4Symbol.getLastTime s = 0.
Proof.
  unfold getSymbols.
  destruct (m_manager st) as [w|]; [|intros []].
  destruct (m_logged_in st); [|intros []].
  destruct (SymbolsGetAll w) as [[[p|] total] w1]; unfold marshal;
    [|intros []].
  destruct (0 <? total); [|intros []]. simpl.
  intros Hin. apply in_map_iff in Hin. destruct Hin as (cs & <- & _).
  repeat split; reflexivity.
Qed.

(** ** Online users *)

(** X11: [isUserOnline] answers true exactly when one of the first [total]
    records of the SDK's online list carries the login; and when it does,
    [getOnlineUsersCount], asked in the same state, is positive.  The count
    is the number the SDK wrote, whether or not it handed back a buffer. *)
Theorem isUserOnline_iff_listed `{CManagerInterface} (l : Z) (st : t) (w : iface) :
  m_manager st = Some w ->
  m_logged_in st = true ->
  let online := fst (fst (OnlineRequest w)) in
  let total := snd (fst (OnlineRequest w)) in
  (fst (isUserOnline l st) = true <->
     exists p i r, online = Some p /\ nth_error p i = Some r /\
                   Z.of_nat i < total /\ OnlineRecord.login r = l) /\
  (fst (isUserOnline l st) = true -> 0 < fst (getOnlineUsersCount st)) /\
  fst (getOnlineUsersCount st) = total.
Proof.
  intros Hmgr Hlog. cbv zeta.
  unfold isUserOnline, getOnlineUsersCount. rewrite Hmgr, Hlog.
  destruct (OnlineRequest w) as [[[p|] total] w1]; simpl.
  - destruct (Z.ltb_spec 0 total) as [Hpos|Hneg]; simpl.
    + split; [|split; [intros _; exact Hpos|reflexivity]].
      rewrite existsb_exists. split.
      * intros (r & Hin & Heq). apply Z.eqb_eq in Heq.
        apply In_nth_error in Hin. destruct Hin as [i Hi].
        rewrite nth_error_firstn in Hi.
        destruct (Nat.ltb_spec i (Z.to_nat total)) as [Hlt|]; [|discriminate].
        exists p, i, r. repeat split; auto. lia.
      * intros (p' & i & r & Hp & Hnth & Hi & Heq). injection Hp as <-.
        exists r. split; [|apply Z.eqb_eq; exact Heq].
        apply (nth_error_In _ i). rewrite nth_error_firstn.
        assert (Hlt : (i <? Z.to_nat total)%nat = true) by (apply Nat.ltb_lt; lia).
        rewrite Hlt. exact Hnth.
    + split; [|split; [discriminate|reflexivity]].
      split; [discriminate|].
      intros (p' & i & r & _ & _ & Hi & _). lia.
  - split; [|split; [discriminate|reflexivity]].
    split; [discriminate|].
    intros (p' & i & r & Hp & _). discriminate Hp.
Qed.

Lemma isUserOnline_iff_listed_witness :
  fst (isUserOnline (API := Stub.api) 12345
         (Stub.authenticated
            (Stub.mk 0 0 0 0 0 (None, 0) (None, 0)
                     (Some [OnlineRecord.mk 7; OnlineRecord.mk 12345], 2)
                     [] 0%nat true))) = true.
Proof.
  pose proof (isUserOnline_iff_listed (H := Stub.api) 12345
                (Stub.authenticated
                   (Stub.mk 0 0 0 0 0 (None, 0) (None, 0)
                            (Some [OnlineRecord.mk 7; OnlineRecord.mk 12345], 2)
                            [] 0%nat true))
                (Stub.mk 0 0 0 0 0 (None, 0) (None, 0)
                         (Some [OnlineRecord.mk 7; OnlineRecord.mk 12345], 2)
                         [] 0%nat true)
                eq_refl eq_refl) as (Hiff & _).
  apply Hiff.
  exists [OnlineRecord.mk 7; OnlineRecord.mk 12345], 1%nat, (OnlineRecord.mk 12345).
  repeat split.
Defined.

(** ** Trade kinds *)

(** X12: the label of [getTypeAsString] identifies the order kind.  It is
    "Unknown" exactly when the command is none of the eight constants, and
    two trades with the same label other than "Unknown" have the same
    command. *)
Theorem getTypeAsString_identifies_kind `{CManagerInterface} (x y : MT4Trade.t) :
  (MT4Trade.getTypeAsString x = "Unknown"%string <->
   ~ In (MT4Trade.getType x)
        [OP_BUY; OP_SELL; OP_BUY_LIMIT; OP_SELL_LIMIT;
         OP_BUY_STOP; OP_SELL_STOP; OP_BALANCE; OP_CREDIT]) /\
  (MT4Trade.getTypeAsString x = MT4Trade.getTypeAsString y ->
   MT4Trade.getTypeAsString x <> "Unknown"%string ->
   MT4Trade.getType x = MT4Trade.getType y).
Proof.
  unfold MT4Trade.getTypeAsString, MT4Trade.getType. cbv zeta.
  set (c := TradeRecord.cmd (MT4Trade.trade x)).
  set (d := TradeRecord.cmd (MT4Trade.trade y)).
  split.
  - simpl In.
    destruct (Z.eqb_spec c OP_BUY); [split; [discriminate|intros Hn; exfalso; apply Hn; auto]|].
    destruct (Z.eqb_spec c OP_SELL); [split; [discriminate|intros Hn; exfalso; apply Hn; auto]|].
    destruct (Z.eqb_spec c OP_BUY_LIMIT); [split; [discriminate|intros Hn; exfalso; apply Hn; auto]|].
    destruct (Z.eqb_spec c OP_SELL_LIMIT); [split; [discriminate|intros Hn; exfalso; apply Hn; auto 6]|].
    destruct (Z.eqb_spec c OP_BUY_STOP); [split; [discriminate|intros Hn; exfalso; apply Hn; auto 7]|].
    destruct (Z.eqb_spec c OP_SELL_STOP); [split; [discriminate|intros Hn; exfalso; apply Hn; auto 8]|].
    destruct (Z.eqb_spec c OP_BALANCE); [split; [discriminate|intros Hn; exfalso; apply Hn; auto 9]|].
    destruct (Z.eqb_spec c OP_CREDIT); [split; [discriminate|intros Hn; exfalso; apply Hn; auto 10]|].
    split; [|reflexivity]. intros _ Hin.
    repeat (destruct Hin as [Hin|Hin]; [congruence|]). exact Hin.
  - destruct (Z.eqb_spec c OP_BUY); [|
    destruct (Z.eqb_spec c OP_SELL); [|
    destruct (Z.eqb_spec c OP_BUY_LIMIT); [|
    destruct (Z.eqb_spec c OP_SELL_LIMIT); [|
    destruct (Z.eqb_spec c OP_BUY_STOP); [|
    destruct (Z.eqb_spec c OP_SELL_STOP); [|
    destruct (Z.eqb_spec c OP_BALANCE); [|
    destruct (Z.eqb_spec c OP_CREDIT); [|intros _ Hn; exfalso; apply Hn; reflexivity]]]]]]]];
    (destruct (Z.eqb_spec d OP_BUY); [|
     destruct (Z.eqb_spec d OP_SELL); [|
     destruct (Z.eqb_spec d OP_BUY_LIMIT); [|
     destruct (Z.eqb_spec d OP_SELL_LIMIT); [|
     destruct (Z.eqb_spec d OP_BUY_STOP); [|
     destruct (Z.eqb_spec d OP_SELL_STOP); [|
     destruct (Z.eqb_spec d OP_BALANCE); [|
     destruct (Z.eqb_spec d OP_CREDIT)]]]]]]]);
    intros Heq _; first [discriminate Heq | congruence].
Qed.

Lemma getSymbols_without_quotes_witness :
  MT4Symbol.hasCurrentInfo (MT4Symbol.of_symbol Stub.no_symbol) = false.
Proof.
  apply (getSymbols_without_quotes
           (H := Catalogue.api (Some [Stub.no_symbol], 1))
           (Catalogue.authenticated (Some [Stub.no_symbol], 1) (Stub.holding []))
           (MT4Symbol.of_symbol Stub.no_symbol)).
  simpl. left. reflexivity.
Defined.

(** ** Margin *)


(** ** The last error after a success *)

(** X14: a success never clears the last error.  When [closeTrade] or
    [modifyTrade] returns true, [openTrade] a non-zero ticket, or
    [getAccount], [getSymbol] or [getTradeByTicket] a record, the last error
    is what it was before the call; [getServerTime], [getOnlineUsersCount]
    and [isUserOnline] never write it at all. *)
Theorem success_keeps_last_error `{CManagerInterface} (st : t) :
  (forall ticket price,
     fst (closeTrade ticket price st) = true ->
     getLastError (snd (closeTrade ticket price st)) = getLastError st) /\
  (forall ticket sl tp,
     fst (modifyTrade ticket sl tp st) = true ->
     getLastError (snd (modifyTrade ticket sl tp st)) = getLastError st) /\
  (forall l symbol cmd volume price sl tp comment,
     fst (openTrade l symbol cmd volume price sl tp comment st) <> 0 ->
     getLastError (snd (openTrade l symbol cmd volume price sl tp comment st))
     = getLastError st) /\
  (forall l,
     fst (getAccount l st) <> None ->
     getLastError (snd (getAccount l st)) = getLastError st) /\
  (forall name,
     fst (getSymbol name st) <> None ->
     getLastError (snd (getSymbol name st)) = getLastError st) /\
  (forall ticket,
     fst (getTradeByTicket ticket st) <> None ->
     getLastError (snd (getTradeByTicket ticket st)) = getLastError st) /\
  getLastError (snd (getServerTime st)) = getLastError st /\
  getLastError (snd (getOnlineUsersCount st)) = getLastError st /\
  (forall l, getLastError (snd (isUserOnline l st)) = getLastError st).
Proof.
  unfold closeTrade, modifyTrade, openTrade, getAccount, getSymbol,
    getTradeByTicket, getServerTime, getOnlineUsersCount, isUserOnline.
  destruct (m_manager st) as [w|];
    [|simpl; repeat split; intros; try reflexivity; try discriminate; congruence].
  destruct (m_logged_in st);
    [|simpl; repeat split; intros; try reflexivity; try discriminate; congruence].
  repeat match goal with |- _ /\ _ => split end.
  - intros ticket price. destruct (TradeTransaction _ w) as [res w1].
    destruct (negb (res =? RET_OK)); simpl; [discriminate|reflexivity].
  - intros ticket sl tp. destruct (TradeTransaction _ w) as [res w1].
    destruct (negb (res =? RET_OK)); simpl; [discriminate|reflexivity].
  - intros l symbol cmd volume price sl tp comment.
    destruct (TradeTransaction _ w) as [res w1].
    destruct (negb (res =? RET_OK)); simpl; [congruence|].
    destruct (TradesGetByLogin l None w1) as [b w2].
    destruct (find_new_order b w2). reflexivity.
  - intros l. destruct (UserRecordGet l w) as [[res user] w1].
    destruct (negb (res =? RET_OK)); simpl; [congruence|reflexivity].
  - intros name. destruct (SymbolGet name w) as [[res cs] w1].
    destruct (negb (res =? RET_OK)); simpl; [congruence|].
    destruct (SymbolInfoGet name w1) as [[res2 si] w2].
    destruct (res2 =? RET_OK); reflexivity.
  - intros ticket. destruct (TradeRecordGet ticket w) as [[res trade] w1].
    destruct (negb (res =? RET_OK)); simpl; [congruence|reflexivity].
  - destruct (ServerTime w). reflexivity.
  - destruct (OnlineRequest w) as [[online total] w1]. reflexivity.
  - intros l. destruct (OnlineRequest w) as [[[p|] total] w1]; [|reflexivity].
    destruct (0 <? total); reflexivity.
Qed.

(** ** The text fields of an open *)

Lemma strncpy_length (src : string) :
  forall n, String.length (strncpy src n) = Nat.min n (String.length src).
Proof.
  unfold strncpy. induction src as [|c src IH]; intros [|n]; simpl; auto.
Qed.

Lemma strncpy_prefix (src : string) :
  forall n, exists rest, src = (strncpy src n ++ rest)%string.
Proof.
  unfold strncpy. induction src as [|c src IH]; intros [|n]; simpl.
  - exists EmptyString. reflexivity.
  - exists EmptyString. reflexivity.
  - exists (String c src). reflexivity.
  - destruct (IH n) as [rest Hrest]. exists rest. rewrite <- Hrest. reflexivity.
Qed.

Lemma strncpy_fits (src : string) :
  forall n, (String.length src <= n)%nat -> strncpy src n = src.
Proof.
  unfold strncpy. induction src as [|c src IH]; intros [|n] Hfit; simpl in *;
    try reflexivity; try lia.
  rewrite IH by lia. reflexivity.
Qed.

(** X15: the symbol and the comment of an open are cut to the descriptor's
    buffers.  The symbol field is the longest prefix of the argument of at
    most [sizeof(symbol) - 1] characters, the argument itself when it fits;
    the comment field is such a prefix of the comment for
    [sizeof(comment) - 1], and empty when the comment is null. *)
Theorem open_descriptor_text_fields `{CManagerInterface}
    (l : Z) (symbol : string) (cmd : Z) (volume price sl tp : double)
    (comment : option string) :
  let trade := open_descriptor l symbol cmd volume price sl tp comment in
  String.length (TradeTransInfo.symbol trade)
  = Nat.min (Nat.pred sizeof_symbol) (String.length symbol) /\
  (exists rest, symbol = (TradeTransInfo.symbol trade ++ rest)%string) /\
  ((String.length symbol <= Nat.pred sizeof_symbol)%nat ->
   TradeTransInfo.symbol trade = symbol) /\
  match comment with
  | Some c =>
      String.length (TradeTransInfo.comment trade)
      = Nat.min (Nat.pred sizeof_comment) (String.length c) /\
      (exists rest, c = (TradeTransInfo.comment trade ++ rest)%string) /\
      ((String.length c <= Nat.pred sizeof_comment)%nat ->
       TradeTransInfo.comment trade = c)
  | None => TradeTransInfo.comment trade = EmptyString
  end.
Proof.
  cbv zeta.
  assert (Hsym : TradeTransInfo.symbol
                   (open_descriptor l symbol cmd volume price sl tp comment)
                 = strncpy symbol (Nat.pred sizeof_symbol)).
  { unfold open_descriptor. destruct comment as [[|c comment]|]; reflexivity. }
  rewrite Hsym.
  split; [apply strncpy_length|].
  split; [apply strncpy_prefix|].
  split; [apply strncpy_fits|].
  unfold open_descriptor. destruct comment as [[|c comment]|]; simpl.
  - split; [rewrite Nat.min_0_r; reflexivity|].
    split; [exists EmptyString; reflexivity|reflexivity].
  - split; [apply (strncpy_length (String c comment))|].
    split; [apply (strncpy_prefix (String c comment))|].
    apply (strncpy_fits (String c comment)).
  - reflexivity.
Qed.

Example open_descriptor_long_symbol :
  TradeTransInfo.symbol
    (open_descriptor (API := Stub.api) 12345 "EURUSD.micro.x" 0
       Stub.d0_10 Stub.d1_095 dzero dzero (Some "opened by hand"%string))
  = "EURUSD.micr"%string.
Proof. reflexivity. Qed.

(** ** Finding the new order *)

(** X16: when one fetched record is strictly newer than every other and
    its open time is positive, [openTrade] returns its ticket, wherever in
    the buffer it stands. *)
Theorem openTrade_finds_strictly_newest `{CManagerInterface}
    (l : Z) (symbol : string) (cmd : Z) (volume price sl tp : double)
    (comment : option string) (st : t) (w : iface) (r : TradeRecord.t) :
  m_manager st = Some w ->
  m_logged_in st = true ->
  let trade := open_descriptor l symbol cmd volume price sl tp comment in
  fst (TradeTransaction trade w) = RET_OK ->
  let records :=
    visited (fst (TradesGetByLogin l None (snd (TradeTransaction trade w)))) in
  In r records ->
  0 < TradeRecord.open_time r ->
  (forall r', In r' records ->
              r' = r \/ TradeRecord.open_time r' < TradeRecord.open_time r) ->
  fst (openTrade l symbol cmd volume price sl tp comment st) = TradeRecord.order r.
Proof.
  intros Hmgr Hlog trade Hok records Hin Hpos Hnewest.
  rewrite (openTrade_authenticated l symbol cmd volume price sl tp comment st w Hmgr Hlog).
  cbv zeta. fold trade. rewrite Hok, Z.eqb_refl. simpl.
  rewrite find_new_order_visited. fold records. unfold newest_ticket.
  destruct (newest_loop records 0 0)
    as [[Hall Heq]|(i & r0 & Hi & Hnew & Hmax & Hfirst & Heq)].
  - specialize (Hall r Hin). lia.
  - rewrite Heq. simpl. apply nth_error_In in Hi.
    destruct (Hnewest r0 Hi) as [->|Hlt]; [reflexivity|].
    specialize (Hmax r Hin). lia.
Qed.

Lemma openTrade_finds_strictly_newest_witness :
  fst (openTrade (API := Stub.api) 12345 "EURUSD" 0
         Stub.d0_10 Stub.d1_095 dzero dzero None
         (Stub.authenticated
            (Stub.holding [Stub.a_trade 1 100; Stub.a_trade 9 300; Stub.a_trade 3 200])))
  = TradeRecord.order (Stub.a_trade 9 300).
Proof.
  apply (openTrade_finds_strictly_newest (H := Stub.api) 12345 "EURUSD" 0
           Stub.d0_10 Stub.d1_095 dzero dzero None
           (Stub.authenticated
              (Stub.holding [Stub.a_trade 1 100; Stub.a_trade 9 300; Stub.a_trade 3 200]))
           (Stub.holding [Stub.a_trade 1 100; Stub.a_trade 9 300; Stub.a_trade 3 200])
           (Stub.a_trade 9 300) eq_refl eq_refl eq_refl).
  - simpl. auto.
  - reflexivity.
  - intros r' Hin. simpl in Hin.
    destruct Hin as [<-|[<-|[<-|[]]]]; [right|left|right]; reflexivity.
Defined.

(** ** Single records *)

(** X17: in an authenticated session [getAccount] and [getTradeByTicket]
    return null exactly when the SDK answers non-OK, the last error then
    being the SDK's description of the code; otherwise they return a view of
    the record the SDK filled in, so that the trade is open exactly when
    that record's close time is zero. *)
Theorem record_lookups `{CManagerInterface} (st : t) (w : iface) :
  m_manager st = Some w ->
  m_logged_in st = true ->
  (forall l,
     let res := fst (fst (UserRecordGet l w)) in
     let user := snd (fst (UserRecordGet l w)) in
     let w1 := snd (UserRecordGet l w) in
     (res <> RET_OK ->
      fst (getAccount l st) = None /\
      getLastError (snd (getAccount l st)) = ErrorDescription res w1) /\
     (res = RET_OK ->
      fst (getAccount l st) = Some (MT4Account.mk user) /\
      option_map MT4Account.getLogin (fst (getAccount l st))
      = Some (UserRecord.login user))) /\
  (forall ticket,
     let res := fst (fst (TradeRecordGet ticket w)) in
     let trade := snd (fst (TradeRecordGet ticket w)) in
     let w1 := snd (TradeRecordGet ticket w) in
     (res <> RET_OK ->
      fst (getTradeByTicket ticket st) = None /\
      getLastError (snd (getTradeByTicket ticket st)) = ErrorDescription res w1) /\
     (res = RET_OK ->
      fst (getTradeByTicket ticket st) = Some (MT4Trade.mk trade) /\
      option_map MT4Trade.isOpen (fst (getTradeByTicket ticket st))
      = Some (TradeRecord.close_time trade =? 0))).
Proof.
  intros Hmgr Hlog. split.
  - intros l. cbv zeta. unfold getAccount. rewrite Hmgr, Hlog.
    destruct (UserRecordGet l w) as [[res user] w1]. simpl.
    destruct (Z.eqb_spec res RET_OK) as [Hok|Hne]; simpl; split; intros Hres;
      try contradiction; split; reflexivity.
  - intros ticket. cbv zeta. unfold getTradeByTicket. rewrite Hmgr, Hlog.
    destruct (TradeRecordGet ticket w) as [[res trade] w1]. simpl.
    destruct (Z.eqb_spec res RET_OK) as [Hok|Hne]; simpl; split; intros Hres;
      try contradiction; split; reflexivity.
Qed.

Lemma record_lookups_witness :
  fst (getTradeByTicket (API := Stub.api) 2
         (Stub.authenticated
            (Stub.holding [Stub.a_trade 1 100; Stub.a_trade 2 200])))
  = Some (MT4Trade.mk (Stub.a_trade 2 200)) /\
  fst (getTradeByTicket (API := Stub.api) 5
         (Stub.authenticated
            (Stub.holding [Stub.a_trade 1 100; Stub.a_trade 2 200])))
  = None.
Proof.
  pose proof (record_lookups (H := Stub.api)
                (Stub.authenticated
                   (Stub.holding [Stub.a_trade 1 100; Stub.a_trade 2 200]))
                (Stub.holding [Stub.a_trade 1 100; Stub.a_trade 2 200])
                eq_refl eq_refl) as (_ & Htrade).
  split.
  - apply (Htrade 2). reflexivity.
  - apply (Htrade 5). discriminate.
Defined.

(** X18: the price accessors of the instrument [getSymbol] returns.  In an
    authenticated session whose [SymbolGet] answers OK, the instrument wraps
    the symbol record the SDK filled in; its bid, ask and last-update time
    are those of [SymbolInfoGet] when that answers OK, and zero when it does
    not. *)
Theorem getSymbol_prices `{CManagerInterface}
    (symbol_name : string) (st : t) (w : iface) :
  m_manager st = Some w ->
  m_logged_in st = true ->
  fst (fst (SymbolGet symbol_name w)) = RET_OK ->
  let cs := snd (fst (SymbolGet symbol_name w)) in
  let w1 := snd (SymbolGet symbol_name w) in
  let res2 := fst (fst (SymbolInfoGet symbol_name w1)) in
  let si := snd (fst (SymbolInfoGet symbol_name w1)) in
  exists s,
    fst (getSymbol symbol_name st) = Some s /\
    MT4Symbol.symbol s = cs /\
    (res2 = RET_OK ->
     MT4Symbol.getBid s = SymbolInfo.bid si /\
     MT4Symbol.getAsk s = SymbolInfo.ask si /\
     MT4Symbol.getLastTime s = SymbolInfo.lasttime si) /\
    (res2 <> RET_OK ->
     MT4Symbol.getBid s = dzero /\
     MT4Symbol.getAsk s = dzero /\
     MT4Symbol.getLastTime s = 0).
Proof.
  intros Hmgr Hlog. unfold getSymbol. rewrite Hmgr, Hlog.
  destruct (SymbolGet symbol_name w) as [[res cs] w1]. simpl. intros ->.
  rewrite Z.eqb_refl. simpl.
  destruct (SymbolInfoGet symbol_name w1) as [[res2 si] w2]. simpl.
  destruct (Z.eqb_spec res2 RET_OK) as [Hok|Hne]; simpl;
    eexists; (split; [reflexivity|]); (split; [reflexivity|]);
    split; intros Hres; try contradiction; repeat split; reflexivity.
Qed.

Lemma getSymbol_prices_witness :
  exists s,
    fst (getSymbol (API := Stub.api) "EURUSD"
           (Stub.authenticated (Stub.quoting 0 3))) = Some s /\
    MT4Symbol.getName s = "EURUSD"%string /\
    MT4Symbol.getBid s = dzero.
Proof.
  destruct (getSymbol_prices (H := Stub.api) "EURUSD"
              (Stub.authenticated (Stub.quoting 0 3)) (Stub.quoting 0 3)
              eq_refl eq_refl eq_refl) as (s & Hs & Hcs & _ & Hzero).
  exists s. split; [exact Hs|]. split.
  - unfold MT4Symbol.getName. rewrite Hcs. reflexivity.
  - apply Hzero. discriminate.
Defined.

(** ** Modifying a trade *)

(** X19: [modifyTrade] submits a broker-side modify that names the ticket
    and carries the two levels, every other field of the descriptor zero;
    in an authenticated session it answers true exactly when the SDK
    answers OK, and otherwise leaves the SDK's description of the code as
    last error. *)
Theorem modifyTrade_outcome `{CManagerInterface}
    (ticket : Z) (sl tp : double) (st : t) (w : iface) :
  m_manager st = Some w ->
  m_logged_in st = true ->
  let trade := modify_descriptor ticket sl tp in
  let res := fst (TradeTransaction trade w) in
  let w1 := snd (TradeTransaction trade w) in
  trade = TradeTransInfo.mk TT_BR_ORDER_MODIFY 0 ticket 0 EmptyString 0
                            dzero sl tp EmptyString /\
  fst (modifyTrade ticket sl tp st) = (res =? RET_OK) /\
  m_manager (snd (modifyTrade ticket sl tp st)) = Some w1 /\
  (res <> RET_OK ->
   getLastError (snd (modifyTrade ticket sl tp st)) = ErrorDescription res w1).
Proof.
  intros Hmgr Hlog. cbv zeta. split; [reflexivity|].
  unfold modifyTrade. rewrite Hmgr, Hlog.
  destruct (TradeTransaction (modify_descriptor ticket sl tp) w) as [res w1].
  simpl. destruct (Z.eqb_spec res RET_OK) as [Hok|Hne]; simpl.
  - repeat split. intros Hres. contradiction.
  - repeat split.
Qed.

Lemma modifyTrade_outcome_witness :
  fst (modifyTrade (API := Stub.api) 7 Stub.d1_095 Stub.d1_095
         (Stub.authenticated (Stub.holding [Stub.a_trade 7 100]))) = true.
Proof.
  apply (modifyTrade_outcome (H := Stub.api) 7 Stub.d1_095 Stub.d1_095
           (Stub.authenticated (Stub.holding [Stub.a_trade 7 100]))
           (Stub.holding [Stub.a_trade 7 100]) eq_refl eq_refl).
Defined.

(** ** The sign of the volume *)

Lemma dmul_d100_shape (s : bool) (m : positive) (e : Z) :
  dmul (S754_finite s m e) d100 = S754_zero s \/
  dmul (S754_finite s m e) d100 = S754_infinity s \/
  dmul (S754_finite s m e) d100 = S754_nan \/
  exists m' e', dmul (S754_finite s m e) d100 = S754_finite s m' e'.
Proof.
  unfold dmul, d100, SFmul, binary_round_aux. rewrite xorb_false_r.
  destruct (shr_fexp dbl_prec dbl_emax _ _ _) as [mrs1 e1].
  destruct (shr_fexp dbl_prec dbl_emax _ _ _) as [mrs2 e2].
  destruct (shr_m mrs2) as [|m'|m']; auto.
  destruct (e2 <=? dbl_emax - dbl_prec); [|auto].
  right. right. right. exists m', e2. reflexivity.
Qed.

(** X20: the volume of an open has the sign of the lot size.  Whenever the
    hundredfold of the lot size has an integral part that fits an [int]
    (never so for NaN and the infinities), the descriptor's volume is zero
    for a zero lot size, not negative for a positive one and not positive
    for a negative one. *)
Theorem open_descriptor_volume_sign `{CManagerInterface}
    (l : Z) (symbol : string) (cmd : Z) (volume price sl tp : double)
    (comment : option string) (n : Z) :
  dtrunc (dmul volume d100) = Some n ->
  INT_MIN <= n <= INT_MAX ->
  let field :=
    TradeTransInfo.volume
      (open_descriptor l symbol cmd volume price sl tp comment) in
  match volume with
  | S754_zero _ => field = 0
  | S754_finite s _ _ => if s then field <= 0 else 0 <= field
  | S754_infinity _ | S754_nan => False
  end.
Proof.
  intros Hn [Hlo Hhi]. cbv zeta.
  destruct (open_descriptor_fields l symbol cmd volume price sl tp comment)
    as (_ & _ & _ & Hvol & _).
  rewrite Hvol. unfold double_to_int. rewrite Hn.
  apply Z.leb_le in Hlo as Hlob. apply Z.leb_le in Hhi as Hhib.
  rewrite Hlob, Hhib. simpl.
  destruct volume as [s|s| |s m e].
  - simpl in Hn. congruence.
  - simpl in Hn. discriminate Hn.
  - simpl in Hn. discriminate Hn.
  - destruct (dmul_d100_shape s m e) as [Hz|[Hi|[Hnan|(m' & e' & Hf)]]];
      rewrite ?Hz, ?Hi, ?Hnan, ?Hf in Hn.
    + simpl in Hn. assert (n = 0) by congruence. subst n. destruct s; lia.
    + discriminate Hn.
    + discriminate Hn.
    + apply dtrunc_toward_zero in Hn. tauto.
Qed.

Lemma open_descriptor_volume_sign_witness :
  0 <= TradeTransInfo.volume
         (open_descriptor (API := Stub.api) 12345 "EURUSD" 0
            Stub.d0_10 Stub.d1_095 dzero dzero None).
Proof.
  apply (open_descriptor_volume_sign (H := Stub.api) 12345 "EURUSD" 0
           Stub.d0_10 Stub.d1_095 dzero dzero None 10).
  - vm_compute. reflexivity.
  - unfold INT_MIN, INT_MAX. lia.
Defined.

Example getMarginLevel_success :
  fst (getMarginLevel (API := Catalogue.api (None, 0)) 12345
         (mk_refs dzero dzero dzero dzero dzero)
         (Catalogue.authenticated (None, 0) (Stub.holding [])))
  = (true, mk_refs Stub.d1_095 Stub.d1_095 Stub.d0_10 Stub.d0_29 d100).
Proof. reflexivity. Qed.
